(** * The KubevirtMachine reconciler

    A shallow embedding of [controllers/kubevirtmachine_controller.go]:
    the per-machine reconciliation loop of the KubeVirt infrastructure
    provider, its finalizer gate, its deferred status patch, the normal and
    the delete path, the bootstrap secret synthesizer and the
    cluster-to-machines mapper.

    The reconciler mutates one in-memory [KubevirtMachine] through a pointer
    and talks to collaborators (the API client, the patch helper, the SSH key
    manager, the VM handle).  The embedding threads a state made of that
    object and of the outside world (the secret store and the chronological
    list of collaborator calls); what a collaborator answers is read from an
    environment record, so every theorem holds for every behaviour of the
    collaborators. *)

From stdpp Require Import base strings gmap list.
From Stdlib Require Import ZArith Lia.

Local Open Scope Z_scope.
Local Open Scope string_scope.

(** ** Errors *)

(** Go [error] values.  [ErrWrap] is what [errors.Wrap] and [errors.Wrapf]
    build; [ErrNotFound] and [ErrAlreadyExists] are the API status errors the
    code distinguishes. *)
Inductive error : Type :=
| ErrNotFound
| ErrAlreadyExists
| ErrOther (msg : string)
| ErrWrap (cause : error) (msg : string).

#[global] Instance error_eq_dec : EqDecision error.
Proof. solve_decision. Defined.

Definition errors_New (msg : string) : error := ErrOther msg.
Definition errors_Wrap (e : error) (msg : string) : error := ErrWrap e msg.

(** [apierrors.IsNotFound]: true for the API's NotFound status; [nil] and
    every other error give false. *)
Definition IsNotFound (err : option error) : bool :=
  match err with
  | Some ErrNotFound => true
  | _ => false
  end.

(** [p == nil] on a pointer. *)
Definition isNil {A} (p : option A) : bool :=
  match p with
  | Some _ => false
  | None => true
  end.

(** A Go call that returns a value: either the value or an error. *)
Inductive result (A : Type) : Type :=
| Ok (a : A)
| Err (e : error).
Arguments Ok {A} a.
Arguments Err {A} e.

(** What a Go function does when it stops: it returns or it panics. *)
Inductive outcome (A : Type) : Type :=
| Returns (a : A)
| Panics (msg : string).
Arguments Returns {A} a.
Arguments Panics {A} msg.

(** ** API types *)

(** [time.Duration] counts nanoseconds. *)
Definition Duration := Z.
Definition Second : Duration := 1000000000.

(** [metav1.Time] as seconds; [0] is the zero time. *)
Definition Time := Z.

(** [client.ObjectKey]: namespace and name. *)
Abbreviation ObjectKey := (string * string)%type (only parsing).

Module metav1.

Record OwnerReference : Type := {
  APIVersion : string;
  Kind : string;
  RefName : string;
  RefUID : string
}.

Record ObjectMeta : Type := {
  Name : string;
  Namespace : string;
  UID : string;
  Labels : gmap string string;
  Finalizers : list string;
  DeletionTimestamp : option Time;
  OwnerReferences : list OwnerReference
}.

(** [IsZero] on a [Time] pointer: a nil pointer and the zero time are both
    zero. *)
Definition IsZero (t : option Time) : bool :=
  match t with
  | None => true
  | Some z => Z.eqb z 0
  end.

Definition set_Finalizers (fs : list string) (m : ObjectMeta) : ObjectMeta :=
  {| Name := Name m; Namespace := Namespace m; UID := UID m;
     Labels := Labels m; Finalizers := fs;
     DeletionTimestamp := DeletionTimestamp m;
     OwnerReferences := OwnerReferences m |}.

Definition set_OwnerReferences (refs : list OwnerReference) (m : ObjectMeta) :
  ObjectMeta :=
  {| Name := Name m; Namespace := Namespace m; UID := UID m;
     Labels := Labels m; Finalizers := Finalizers m;
     DeletionTimestamp := DeletionTimestamp m;
     OwnerReferences := refs |}.

End metav1.

#[global] Instance OwnerReference_eq_dec : EqDecision metav1.OwnerReference.
Proof. solve_decision. Defined.

#[global] Instance ObjectMeta_eq_dec : EqDecision metav1.ObjectMeta.
Proof. solve_decision. Defined.

Module clusterv1.

Inductive ConditionStatus : Type :=
| ConditionTrue
| ConditionFalse
| ConditionUnknown.

Inductive ConditionSeverity : Type :=
| ConditionSeverityError
| ConditionSeverityWarning
| ConditionSeverityInfo
| ConditionSeverityNone.

Definition ConditionType := string.

Record Condition : Type := {
  Type_ : ConditionType;
  Status : ConditionStatus;
  Severity : ConditionSeverity;
  LastTransitionTime : Time;
  Reason : string;
  Message : string
}.

Definition Conditions := list Condition.

Inductive MachineAddressType : Type :=
| MachineHostName
| MachineExternalIP
| MachineInternalIP.

Record MachineAddress : Type := {
  AddressType : MachineAddressType;
  Address : string
}.

(** [clusterv1.Machine], with the fields the reconciler reads. *)
Record Machine : Type := {
  MachineMeta : metav1.ObjectMeta;
  Spec_Bootstrap_DataSecretName : option string;
  Spec_InfrastructureRef_Name : string
}.

(** [clusterv1.Cluster]; [Spec.InfrastructureRef] is a pointer. *)
Record Cluster : Type := {
  ClusterMeta : metav1.ObjectMeta;
  Spec_InfrastructureRef : option string;
  Status_InfrastructureReady : bool;
  Status_Conditions : Conditions
}.

Definition ReadyCondition : ConditionType := "Ready".
Definition ControlPlaneInitializedCondition : ConditionType :=
  "ControlPlaneInitialized".
Definition WaitingForControlPlaneAvailableReason : string :=
  "WaitingForControlPlaneAvailable".
Definition DeletingReason : string := "Deleting".
Definition ClusterLabelName : string := "cluster.x-k8s.io/cluster-name".
Definition MachineControlPlaneLabelName : string :=
  "cluster.x-k8s.io/control-plane".
Definition ClusterSecretType : string := "cluster.x-k8s.io/secret".

End clusterv1.

#[global] Instance ConditionStatus_eq_dec : EqDecision clusterv1.ConditionStatus.
Proof. solve_decision. Defined.

#[global] Instance ConditionSeverity_eq_dec :
  EqDecision clusterv1.ConditionSeverity.
Proof. solve_decision. Defined.

#[global] Instance Condition_eq_dec : EqDecision clusterv1.Condition.
Proof. solve_decision. Defined.

Module corev1.

Record Secret : Type := {
  SecretMeta : metav1.ObjectMeta;
  SecretType : string;
  Data : gmap string string
}.

Definition set_SecretMeta (m : metav1.ObjectMeta) (s : Secret) : Secret :=
  {| SecretMeta := m; SecretType := SecretType s; Data := Data s |}.
Definition set_SecretType (t : string) (s : Secret) : Secret :=
  {| SecretMeta := SecretMeta s; SecretType := t; Data := Data s |}.
Definition set_Data (d : gmap string string) (s : Secret) : Secret :=
  {| SecretMeta := SecretMeta s; SecretType := SecretType s; Data := d |}.

End corev1.

#[global] Instance Secret_eq_dec : EqDecision corev1.Secret.
Proof. solve_decision. Defined.

(** Modelled from the spec: api/v1alpha4 is not under src/.  The records hold
    the fields the controller reads and writes, and the condition types and
    reasons bear the names the spec gives them. *)
Module infrav1.

Record KubevirtMachine : Type := {
  APIVersion : string;
  Kind : string;
  ObjectMeta : metav1.ObjectMeta;
  Spec_ProviderID : option string;
  Spec_Bootstrapped : bool;
  Status_Ready : bool;
  Status_Addresses : list clusterv1.MachineAddress;
  Status_Conditions : clusterv1.Conditions
}.

Record KubevirtCluster : Type := {
  ClusterObjectMeta : metav1.ObjectMeta
}.

Definition set_ObjectMeta (m : metav1.ObjectMeta) (k : KubevirtMachine) :
  KubevirtMachine :=
  {| APIVersion := APIVersion k; Kind := Kind k; ObjectMeta := m;
     Spec_ProviderID := Spec_ProviderID k;
     Spec_Bootstrapped := Spec_Bootstrapped k;
     Status_Ready := Status_Ready k;
     Status_Addresses := Status_Addresses k;
     Status_Conditions := Status_Conditions k |}.

Definition set_ProviderID (p : option string) (k : KubevirtMachine) :
  KubevirtMachine :=
  {| APIVersion := APIVersion k; Kind := Kind k; ObjectMeta := ObjectMeta k;
     Spec_ProviderID := p;
     Spec_Bootstrapped := Spec_Bootstrapped k;
     Status_Ready := Status_Ready k;
     Status_Addresses := Status_Addresses k;
     Status_Conditions := Status_Conditions k |}.

Definition set_Bootstrapped (b : bool) (k : KubevirtMachine) :
  KubevirtMachine :=
  {| APIVersion := APIVersion k; Kind := Kind k; ObjectMeta := ObjectMeta k;
     Spec_ProviderID := Spec_ProviderID k;
     Spec_Bootstrapped := b;
     Status_Ready := Status_Ready k;
     Status_Addresses := Status_Addresses k;
     Status_Conditions := Status_Conditions k |}.

Definition set_Ready (b : bool) (k : KubevirtMachine) : KubevirtMachine :=
  {| APIVersion := APIVersion k; Kind := Kind k; ObjectMeta := ObjectMeta k;
     Spec_ProviderID := Spec_ProviderID k;
     Spec_Bootstrapped := Spec_Bootstrapped k;
     Status_Ready := b;
     Status_Addresses := Status_Addresses k;
     Status_Conditions := Status_Conditions k |}.

Definition set_Addresses (a : list clusterv1.MachineAddress)
  (k : KubevirtMachine) : KubevirtMachine :=
  {| APIVersion := APIVersion k; Kind := Kind k; ObjectMeta := ObjectMeta k;
     Spec_ProviderID := Spec_ProviderID k;
     Spec_Bootstrapped := Spec_Bootstrapped k;
     Status_Ready := Status_Ready k;
     Status_Addresses := a;
     Status_Conditions := Status_Conditions k |}.

Definition set_Conditions (c : clusterv1.Conditions) (k : KubevirtMachine) :
  KubevirtMachine :=
  {| APIVersion := APIVersion k; Kind := Kind k; ObjectMeta := ObjectMeta k;
     Spec_ProviderID := Spec_ProviderID k;
     Spec_Bootstrapped := Spec_Bootstrapped k;
     Status_Ready := Status_Ready k;
     Status_Addresses := Status_Addresses k;
     Status_Conditions := c |}.

(** The zero value [&infrav1.KubevirtMachine{}]. *)
Definition zero : KubevirtMachine :=
  {| APIVersion := ""; Kind := "";
     ObjectMeta :=
       {| metav1.Name := ""; metav1.Namespace := ""; metav1.UID := "";
          metav1.Labels := ∅; metav1.Finalizers := [];
          metav1.DeletionTimestamp := None; metav1.OwnerReferences := [] |};
     Spec_ProviderID := None; Spec_Bootstrapped := false;
     Status_Ready := false; Status_Addresses := [];
     Status_Conditions := [] |}.

Definition MachineFinalizer : string :=
  "kubevirtmachine.infrastructure.cluster.x-k8s.io".
Definition VMProvisionedCondition : clusterv1.ConditionType := "VMProvisioned".
Definition BootstrapExecSucceededCondition : clusterv1.ConditionType :=
  "BootstrapExecSucceeded".
Definition WaitingForClusterInfrastructureReason : string :=
  "WaitingForClusterInfrastructure".
Definition WaitingForBootstrapDataReason : string := "WaitingForBootstrapData".
Definition BootstrappingReason : string := "Bootstrapping".
Definition BootstrapFailedReason : string := "BootstrapFailed".

End infrav1.

(** ** Library helpers the reconciler calls *)

(** Modelled from the spec: cluster-api's [conditions] package is not under
    src/.  The spec's data model makes the conditions of an object a set of
    records named by their type, whose [lastTransitionTime] changes only when
    the status flips; [Set_] replaces the record of the same type in place or
    appends a new one. *)
Module conditions.
Import clusterv1.

Class Getter (T : Type) : Type := GetConditions : T -> Conditions.
Class Setter (T : Type) : Type := SetConditions : Conditions -> T -> T.

#[global] Instance KubevirtMachine_Getter : Getter infrav1.KubevirtMachine :=
  infrav1.Status_Conditions.
#[global] Instance KubevirtMachine_Setter : Setter infrav1.KubevirtMachine :=
  infrav1.set_Conditions.
#[global] Instance Cluster_Getter : Getter Cluster := Status_Conditions.

Fixpoint lookup (cs : Conditions) (t : ConditionType) : option Condition :=
  match cs with
  | [] => None
  | c :: cs' => if bool_decide (Type_ c = t) then Some c else lookup cs' t
  end.

Definition Get {T} `{Getter T} (from : T) (t : ConditionType) :
  option Condition :=
  lookup (GetConditions from) t.

Definition Has {T} `{Getter T} (from : T) (t : ConditionType) : bool :=
  match Get from t with
  | Some _ => true
  | None => false
  end.

Definition IsTrue {T} `{Getter T} (from : T) (t : ConditionType) : bool :=
  match Get from t with
  | Some c => bool_decide (Status c = ConditionTrue)
  | None => false
  end.

Definition TrueCondition (t : ConditionType) : Condition :=
  {| Type_ := t; Status := ConditionTrue; Severity := ConditionSeverityNone;
     LastTransitionTime := 0; Reason := ""; Message := "" |}.

Definition FalseCondition (t : ConditionType) (reason : string)
  (severity : ConditionSeverity) (message : string) : Condition :=
  {| Type_ := t; Status := ConditionFalse; Severity := severity;
     LastTransitionTime := 0; Reason := reason; Message := message |}.

Definition stamp (time : Time) (c : Condition) : Condition :=
  {| Type_ := Type_ c; Status := Status c; Severity := Severity c;
     LastTransitionTime := time; Reason := Reason c; Message := Message c |}.

Fixpoint upsert (now : Time) (c : Condition) (cs : Conditions) : Conditions :=
  match cs with
  | [] =>
      [if Z.eqb (LastTransitionTime c) 0 then stamp now c else c]
  | x :: cs' =>
      if bool_decide (Type_ x = Type_ c)
      then (if bool_decide (Status x = Status c)
            then stamp (LastTransitionTime x) c
            else stamp now c) :: cs'
      else x :: upsert now c cs'
  end.

Definition Set_ {T} `{Getter T} `{Setter T} (now : Time) (to : T)
  (c : Condition) : T :=
  SetConditions (upsert now c (GetConditions to)) to.

Definition MarkTrue {T} `{Getter T} `{Setter T} (now : Time) (to : T)
  (t : ConditionType) : T :=
  Set_ now to (TrueCondition t).

Definition MarkFalse {T} `{Getter T} `{Setter T} (now : Time) (to : T)
  (t : ConditionType) (reason : string) (severity : ConditionSeverity)
  (message : string) : T :=
  Set_ now to (FalseCondition t reason severity message).

End conditions.

(** controller-runtime's finalizer helpers on the KubevirtMachine. *)
Module controllerutil.

Definition ContainsFinalizer (o : infrav1.KubevirtMachine)
  (finalizer : string) : bool :=
  bool_decide (finalizer ∈ metav1.Finalizers (infrav1.ObjectMeta o)).

Definition AddFinalizer (o : infrav1.KubevirtMachine) (finalizer : string) :
  infrav1.KubevirtMachine :=
  let f := metav1.Finalizers (infrav1.ObjectMeta o) in
  if bool_decide (finalizer ∈ f) then o
  else infrav1.set_ObjectMeta
         (metav1.set_Finalizers (f ++ [finalizer]) (infrav1.ObjectMeta o)) o.

Definition RemoveFinalizer (o : infrav1.KubevirtMachine)
  (finalizer : string) : infrav1.KubevirtMachine :=
  let f := metav1.Finalizers (infrav1.ObjectMeta o) in
  infrav1.set_ObjectMeta
    (metav1.set_Finalizers (filter (fun e => e ≠ finalizer) f)
       (infrav1.ObjectMeta o)) o.

End controllerutil.

Module util.

(** [util.IsControlPlaneMachine]: the control-plane label is present. *)
Definition IsControlPlaneMachine (m : clusterv1.Machine) : bool :=
  match metav1.Labels (clusterv1.MachineMeta m)
          !! clusterv1.MachineControlPlaneLabelName with
  | Some _ => true
  | None => false
  end.

(** [util.EnsureOwnerRef]: replace the reference to the same object, or
    append. *)
Fixpoint EnsureOwnerRef (refs : list metav1.OwnerReference)
  (ref : metav1.OwnerReference) : list metav1.OwnerReference :=
  match refs with
  | [] => [ref]
  | r :: refs' =>
      if bool_decide (metav1.APIVersion r = metav1.APIVersion ref
                      ∧ metav1.Kind r = metav1.Kind ref
                      ∧ metav1.RefName r = metav1.RefName ref)
      then ref :: refs'
      else r :: EnsureOwnerRef refs' ref
  end.

End util.

(** ** The outside world *)

Inductive ObjectKind : Type :=
| KubevirtMachineKind
| KubevirtClusterKind
| SecretKind.

(** One entry per call to a collaborator, in the order the calls are made. *)
Inductive Event : Type :=
| EvGet (kind : ObjectKind) (key : ObjectKey)
| EvGetOwnerMachine
| EvGetClusterFromMetadata
| EvGetOwnerCluster
| EvList
| EvCreate (obj : corev1.Secret) (err : option error)
| EvUpdate (obj : corev1.Secret) (err : option error)
| EvPatch (obj : infrav1.KubevirtMachine) (err : option error)
| EvIsPersistedToSecret
| EvFetchPersistedKeysFromSecret
| EvNewMachine
| EvExists
| EvVMCreate (err : option error)
| EvAddress
| EvIsBooted
| EvIsBootstrapped
| EvSetProviderID
| EvClientNew.

(** The API server's secrets and the calls made so far. *)
Record World : Type := {
  secrets : gmap (string * string) corev1.Secret;
  trace : list Event
}.

(** [ssh.VMCommandExecutor]. *)
Record VMCommandExecutor : Type := {
  IPAddress : string;
  PublicKey : string;
  PrivateKey : string
}.

(** [ctrl.Request] and [ctrl.Result]. *)
Record Request : Type := { NamespacedName : ObjectKey }.

Record Result : Type := {
  Requeue : bool;
  RequeueAfter : Duration
}.

Definition emptyResult : Result := {| Requeue := false; RequeueAfter := 0 |}.
Definition requeueAfter (d : Duration) : Result :=
  {| Requeue := false; RequeueAfter := d |}.

(** Modelled from the spec: pkg/context is not under src/.  The
    [MachineContext] carries the Cluster, the KubevirtCluster and the Machine;
    the target of its KubevirtMachine pointer lives in the state. *)
Record MachineContext : Type := {
  ctx_Cluster : clusterv1.Cluster;
  ctx_KubevirtCluster : infrav1.KubevirtCluster;
  ctx_Machine : clusterv1.Machine
}.

(** [patch.Helper]: the snapshot taken by [patch.NewHelper]. *)
Record Helper : Type := { before : infrav1.KubevirtMachine }.

(** The workload cluster client is an opaque handle. *)
Definition WorkloadClient := string.

(** What the collaborators answer.  Every answer may depend on the world,
    hence on the secrets and on everything that was called before. *)
Record Env : Type := {
  Now : World -> Time;
  Get_KubevirtMachine : World -> ObjectKey -> result infrav1.KubevirtMachine;
  GetOwnerMachine :
    World -> metav1.ObjectMeta -> option clusterv1.Machine * option error;
  GetClusterFromMetadata :
    World -> metav1.ObjectMeta -> option clusterv1.Cluster * option error;
  Get_KubevirtCluster : World -> ObjectKey -> result infrav1.KubevirtCluster;
  GetOwnerCluster :
    World -> metav1.ObjectMeta -> option clusterv1.Cluster * option error;
  List_Machines :
    World -> string -> gmap string string -> result (list clusterv1.Machine);
  NewHelper_error : World -> infrav1.KubevirtMachine -> option error;
  Patch : World -> Helper -> infrav1.KubevirtMachine -> option error;
  Get_fault : World -> ObjectKey -> option error;
  Create_fault : World -> corev1.Secret -> option error;
  Update_fault : World -> corev1.Secret -> option error;
  IsPersistedToSecret : World -> infrav1.KubevirtCluster -> bool;
  FetchPersistedKeysFromSecret :
    World -> infrav1.KubevirtCluster -> result (string * string);
  NewMachine_error : World -> MachineContext -> option error;
  Exists : World -> bool;
  Create : World -> option error;
  Address : World -> string;
  IsBooted : World -> VMCommandExecutor -> bool;
  IsBootstrapped : World -> VMCommandExecutor -> bool;
  SetProviderID : World -> WorkloadClient -> result string;
  RESTConfigFromKubeConfig : string -> result string;
  client_New : World -> string -> result WorkloadClient
}.

(** ** The state monad of one reconciliation *)

(** [mem] is the object behind the [kubevirtMachine] pointer. *)
Record State : Type := {
  mem : infrav1.KubevirtMachine;
  world : World
}.

Definition M (A : Type) : Type := State -> A * State.

Definition ret {A} (a : A) : M A := fun st => (a, st).

Definition bind {A B} (m : M A) (k : A -> M B) : M B :=
  fun st => let '(a, st') := m st in k a st'.

Declare Scope go_scope.
Delimit Scope go_scope with go.
Notation "x <- c ;; k" := (bind c (fun x => k))
  (at level 100, c at next level, right associativity) : go_scope.
Notation "c ;;; k" := (bind c (fun _ => k))
  (at level 100, right associativity) : go_scope.
Local Open Scope go_scope.

Definition get_mem : M infrav1.KubevirtMachine := fun st => (mem st, st).

Definition modify (f : infrav1.KubevirtMachine -> infrav1.KubevirtMachine) :
  M unit :=
  fun st => (tt, {| mem := f (mem st); world := world st |}).

Definition record (e : Event) (w : World) : World :=
  {| secrets := secrets w; trace := trace w ++ [e] |}.

(** Ask a collaborator and log the call. *)
Definition call {A} (e : A -> Event) (ask : World -> A) : M A :=
  fun st =>
    let a := ask (world st) in
    (a, {| mem := mem st; world := record (e a) (world st) |}).

(** Read the world without calling anything ([time.Now], constructors). *)
Definition peek {A} (ask : World -> A) : M A :=
  fun st => (ask (world st), st).

(** ** The controller *)

(** [client.Object]: the argument of a map function, with its dynamic
    type. *)
Inductive Object : Type :=
| KubevirtClusterObject (c : infrav1.KubevirtCluster)
| KubevirtMachineObject (m : infrav1.KubevirtMachine)
| MachineObject (m : clusterv1.Machine)
| ClusterObject (c : clusterv1.Cluster)
| SecretObject (s : corev1.Secret).

Definition typeName (o : Object) : string :=
  match o with
  | KubevirtClusterObject _ => "*v1alpha4.KubevirtCluster"
  | KubevirtMachineObject _ => "*v1alpha4.KubevirtMachine"
  | MachineObject _ => "*v1alpha4.Machine"
  | ClusterObject _ => "*v1alpha4.Cluster"
  | SecretObject _ => "*v1.Secret"
  end.

Definition ObjectKeyFromObject (s : corev1.Secret) : ObjectKey :=
  (metav1.Namespace (corev1.SecretMeta s), metav1.Name (corev1.SecretMeta s)).

Definition emptyMeta (name namespace : string) : metav1.ObjectMeta :=
  {| metav1.Name := name; metav1.Namespace := namespace; metav1.UID := "";
     metav1.Labels := ∅; metav1.Finalizers := [];
     metav1.DeletionTimestamp := None; metav1.OwnerReferences := [] |}.

Section Reconciler.

Variable env : Env.

(** *** The API client on secrets *)

Definition Client_Get (key : ObjectKey) : M (result corev1.Secret) :=
  call (fun _ => EvGet SecretKind key)
    (fun w =>
       match Get_fault env w key with
       | Some e => Err e
       | None =>
           match secrets w !! key with
           | Some s => Ok s
           | None => Err ErrNotFound
           end
       end).

Definition Client_Create (obj : corev1.Secret) : M (option error) :=
  fun st =>
    let w := world st in
    let key := ObjectKeyFromObject obj in
    let err :=
      match Create_fault env w obj with
      | Some e => Some e
      | None =>
          match secrets w !! key with
          | Some _ => Some ErrAlreadyExists
          | None => None
          end
      end in
    let store :=
      match err with
      | Some _ => secrets w
      | None => <[key := obj]> (secrets w)
      end in
    (err, {| mem := mem st;
             world := {| secrets := store;
                         trace := trace w ++ [EvCreate obj err] |} |}).

Definition Client_Update (obj : corev1.Secret) : M (option error) :=
  fun st =>
    let w := world st in
    let key := ObjectKeyFromObject obj in
    let err :=
      match Update_fault env w obj with
      | Some e => Some e
      | None =>
          match secrets w !! key with
          | Some _ => None
          | None => Some ErrNotFound
          end
      end in
    let store :=
      match err with
      | Some _ => secrets w
      | None => <[key := obj]> (secrets w)
      end in
    (err, {| mem := mem st;
             world := {| secrets := store;
                         trace := trace w ++ [EvUpdate obj err] |} |}).

(** [controllerutil.MutateFn]: a closure over the object pointer; here it
    takes the object and gives it back. *)
Definition MutateFn : Type := corev1.Secret -> M (corev1.Secret * option error).

Definition mutate (f : MutateFn) (key : ObjectKey) (obj : corev1.Secret) :
  M (corev1.Secret * option error) :=
  r <- f obj ;;
  match snd r with
  | Some e => ret (fst r, Some e)
  | None =>
      if bool_decide (key = ObjectKeyFromObject (fst r))
      then ret (fst r, None)
      else ret (fst r,
                Some (errors_New
                  "MutateFn cannot mutate object name and/or object namespace"))
  end.

(** [controllerutil.CreateOrUpdate]; the operation result, which both callers
    drop, is left out. *)
Definition CreateOrUpdate (obj : corev1.Secret) (f : MutateFn) :
  M (corev1.Secret * option error) :=
  let key := ObjectKeyFromObject obj in
  r <- Client_Get key ;;
  match r with
  | Err err =>
      if negb (IsNotFound (Some err)) then ret (obj, Some err)
      else
        r <- mutate f key obj ;;
        match snd r with
        | Some e => ret (fst r, Some e)
        | None =>
            err <- Client_Create (fst r) ;;
            ret (fst r, err)
        end
  | Ok existing =>
      r <- mutate f key existing ;;
      match snd r with
      | Some e => ret (fst r, Some e)
      | None =>
          if bool_decide (existing = fst r) then ret (fst r, None)
          else
            err <- Client_Update (fst r) ;;
            ret (fst r, err)
      end
  end.

(** *** Conditions and the patch helper on the object in memory *)

Definition MarkTrue (t : clusterv1.ConditionType) : M unit :=
  now <- peek (Now env) ;;
  modify (fun k => conditions.MarkTrue now k t).

Definition MarkFalse (t : clusterv1.ConditionType) (reason : string)
  (severity : clusterv1.ConditionSeverity) (message : string) : M unit :=
  now <- peek (Now env) ;;
  modify (fun k => conditions.MarkFalse now k t reason severity message).

(** [patch.NewHelper] snapshots the object; it calls nothing. *)
Definition NewHelper : M (result Helper) :=
  fun st =>
    match NewHelper_error env (world st) (mem st) with
    | Some e => (Err e, st)
    | None => (Ok {| before := mem st |}, st)
    end.

(** Modelled from the spec: [MachineContext.PatchKubevirtMachine] lives in
    pkg/context, which is not under src/.  The spec has it persist the
    machine's spec and status back to the API layer, and fail or succeed. *)
Definition PatchKubevirtMachine (patchHelper : Helper) : M (option error) :=
  kubevirtMachine <- get_mem ;;
  call (EvPatch kubevirtMachine)
    (fun w => Patch env w patchHelper kubevirtMachine).

(** *** reconcileKubevirtBootstrapSecret *)

Definition reconcileKubevirtBootstrapSecret (ctx : MachineContext)
  (sshKeys : string * string) : M (option error) :=
  match clusterv1.Spec_Bootstrap_DataSecretName (ctx_Machine ctx) with
  | None =>
      ret (Some (errors_New
        "error retrieving bootstrap data: linked Machine's bootstrap.dataSecretName is nil"))
  | Some dataSecretName =>
      let namespace := metav1.Namespace (clusterv1.MachineMeta (ctx_Machine ctx)) in
      let bootstrapDataSecretKey := (namespace, dataSecretName +:+ "-userdata") in
      r <- Client_Get bootstrapDataSecretKey ;;
      match r with
      | Ok _ => ret None
      | Err _ =>
          let key := (namespace, dataSecretName) in
          r <- Client_Get key ;;
          match r with
          | Err err =>
              ret (Some (errors_Wrap err
                ("failed to retrieve bootstrap data secret for KubevirtMachine "
                 +:+ namespace +:+ "/"
                 +:+ metav1.Name (clusterv1.MachineMeta (ctx_Machine ctx)))))
          | Ok s =>
              match corev1.Data s !! "value" with
              | None =>
                  ret (Some (errors_New
                    "error retrieving bootstrap data: secret value key is missing"))
              | Some value =>
                  let updatedValue := value in
                  let newBootstrapDataSecret :=
                    {| corev1.SecretMeta :=
                         emptyMeta
                           (metav1.Name (corev1.SecretMeta s) +:+ "-userdata")
                           namespace;
                       corev1.SecretType := "";
                       corev1.Data := ∅ |} in
                  r <- CreateOrUpdate newBootstrapDataSecret
                         (fun obj =>
                            let obj :=
                              corev1.set_SecretType clusterv1.ClusterSecretType obj in
                            let obj :=
                              corev1.set_Data {[ "userdata" := updatedValue ]} obj in
                            let mutateFn : MutateFn := fun obj =>
                              k <- get_mem ;;
                              ret (corev1.set_SecretMeta
                                     (metav1.set_OwnerReferences
                                        (util.EnsureOwnerRef
                                           (metav1.OwnerReferences (corev1.SecretMeta obj))
                                           {| metav1.APIVersion := infrav1.APIVersion k;
                                              metav1.Kind := infrav1.Kind k;
                                              metav1.RefName :=
                                                metav1.Name (infrav1.ObjectMeta k);
                                              metav1.RefUID :=
                                                metav1.UID (infrav1.ObjectMeta k) |})
                                        (corev1.SecretMeta obj))
                                     obj, None) in
                            r <- CreateOrUpdate obj mutateFn ;;
                            match snd r with
                            | Some err =>
                                ret (fst r,
                                     Some (errors_Wrap err
                                       "failed to set owner reference for secret"))
                            | None => ret (fst r, None)
                            end) ;;
                  match snd r with
                  | Some err =>
                      ret (Some (errors_Wrap err
                        "failed to create kubevirt bootstrap secret for cluster"))
                  | None => ret None
                  end
              end
          end
      end
  end.

(** *** The workload cluster client *)

Definition getKubeconfigForWorkloadCluster (ctx : MachineContext) :
  M (string * option error) :=
  let meta := infrav1.ClusterObjectMeta (ctx_KubevirtCluster ctx) in
  let kubeconfigSecretKey :=
    (metav1.Namespace meta, metav1.Name meta +:+ "-kubeconfig") in
  r <- Client_Get kubeconfigSecretKey ;;
  match r with
  | Err err =>
      ret ("", Some (errors_Wrap err
                       "failed to fetch kubeconfig for workload cluster"))
  | Ok kubeconfigSecret =>
      match corev1.Data kubeconfigSecret !! "value" with
      | None =>
          ret ("", Some (errors_New
            "error retrieving kubeconfig data: secret value key is missing"))
      | Some value => ret (value, None)
      end
  end.

Definition reconcileWorkloadClusterClient (ctx : MachineContext) :
  M (option WorkloadClient * option error) :=
  r <- getKubeconfigForWorkloadCluster ctx ;;
  match snd r with
  | Some err =>
      ret (None, Some (errors_Wrap err
                         "failed to get kubeconfig for workload cluster"))
  | None =>
      match RESTConfigFromKubeConfig env (fst r) with
      | Err err =>
          ret (None, Some (errors_Wrap err "failed to create REST config"))
      | Ok restConfig =>
          c <- call (fun _ => EvClientNew) (fun w => client_New env w restConfig) ;;
          match c with
          | Err err =>
              ret (None, Some (errors_Wrap err
                                 "failed to create workload cluster client"))
          | Ok workloadClusterClient => ret (Some workloadClusterClient, None)
          end
      end
  end.

(** *** The SSH key manager and the VM handle *)

(** Modelled from the spec: pkg/ssh and pkg/kubevirt are not under src/.  The
    spec gives their contracts only: [isPersisted() -> bool], a fallible
    [fetch()], and a VM handle with [Exists], [Create], [Address], [IsBooted],
    [IsBootstrapped] and [SetProviderID].  Each call asks the environment and
    is logged. *)
Definition ssh_IsPersistedToSecret (ctx : MachineContext) : M bool :=
  call (fun _ => EvIsPersistedToSecret)
    (fun w => IsPersistedToSecret env w (ctx_KubevirtCluster ctx)).

Definition ssh_FetchPersistedKeysFromSecret (ctx : MachineContext) :
  M (result (string * string)) :=
  call (fun _ => EvFetchPersistedKeysFromSecret)
    (fun w => FetchPersistedKeysFromSecret env w (ctx_KubevirtCluster ctx)).

Definition kubevirthandler_NewMachine (ctx : MachineContext) :
  M (option error) :=
  call (fun _ => EvNewMachine) (fun w => NewMachine_error env w ctx).

Definition externalMachine_Exists : M bool :=
  call (fun _ => EvExists) (Exists env).

Definition externalMachine_Create : M (option error) :=
  call EvVMCreate (Create env).

Definition externalMachine_Address : M string :=
  call (fun _ => EvAddress) (Address env).

Definition externalMachine_IsBooted (e : VMCommandExecutor) : M bool :=
  call (fun _ => EvIsBooted) (fun w => IsBooted env w e).

Definition externalMachine_IsBootstrapped (e : VMCommandExecutor) : M bool :=
  call (fun _ => EvIsBootstrapped) (fun w => IsBootstrapped env w e).

Definition externalMachine_SetProviderID (c : WorkloadClient) :
  M (result string) :=
  call (fun _ => EvSetProviderID) (fun w => SetProviderID env w c).

(** *** reconcileNormal *)

(** Lines 283-310: patch the node with the provider id and finish. *)
Definition reconcileProviderID (ctx : MachineContext) :
  M (Result * option error) :=
  r <- reconcileWorkloadClusterClient ctx ;;
  match fst r with
  | None => ret (requeueAfter (10 * Second), None)
  | Some workloadClusterClient =>
      p <- externalMachine_SetProviderID workloadClusterClient ;;
      match p with
      | Err _ => ret (requeueAfter (5 * Second), None)
      | Ok providerID =>
          modify (infrav1.set_ProviderID (Some providerID)) ;;;
          modify (infrav1.set_Ready true) ;;;
          MarkTrue infrav1.VMProvisionedCondition ;;;
          ret (emptyResult, None)
      end
  end.

(** Lines 265-281: the bootstrap succeeded; publish the addresses. *)
Definition reconcileAddresses (ctx : MachineContext) :
  M (Result * option error) :=
  MarkTrue infrav1.BootstrapExecSucceededCondition ;;;
  k <- get_mem ;;
  internal <- externalMachine_Address ;;
  external <- externalMachine_Address ;;
  modify (infrav1.set_Addresses
            [ {| clusterv1.AddressType := clusterv1.MachineHostName;
                 clusterv1.Address := metav1.Name (infrav1.ObjectMeta k) |};
              {| clusterv1.AddressType := clusterv1.MachineInternalIP;
                 clusterv1.Address := internal |};
              {| clusterv1.AddressType := clusterv1.MachineExternalIP;
                 clusterv1.Address := external |} ]) ;;;
  reconcileProviderID ctx.

(** Lines 254-263: wait for the VM to bootstrap, once. *)
Definition reconcileBootstrap (ctx : MachineContext)
  (vmCommandExecutor : VMCommandExecutor) : M (Result * option error) :=
  k <- get_mem ;;
  if negb (infrav1.Spec_Bootstrapped k) then
    bootstrapped <- externalMachine_IsBootstrapped vmCommandExecutor ;;
    if negb bootstrapped then
      MarkFalse infrav1.BootstrapExecSucceededCondition
        infrav1.BootstrapFailedReason clusterv1.ConditionSeverityWarning
        "VM not bootstrapped yet" ;;;
      ret (requeueAfter (10 * Second), None)
    else
      modify (infrav1.set_Bootstrapped true) ;;;
      reconcileAddresses ctx
  else reconcileAddresses ctx.

(** Lines 208-252: the VM handle, the VM itself, the boot probe and the
    early patch of the conditions. *)
Definition reconcileVM (ctx : MachineContext) (sshKeys : string * string) :
  M (Result * option error) :=
  err <- kubevirthandler_NewMachine ctx ;;
  match err with
  | Some err =>
      ret (emptyResult,
           Some (errors_Wrap err
                   "failed to create helper for managing the externalMachine"))
  | None =>
      exists_ <- externalMachine_Exists ;;
      created <- (if negb exists_ then externalMachine_Create else ret None) ;;
      match created with
      | Some err =>
          ret (emptyResult, Some (errors_Wrap err "failed to create VM instance"))
      | None =>
          address <- externalMachine_Address ;;
          let vmCommandExecutor :=
            {| IPAddress := address; PublicKey := fst sshKeys;
               PrivateKey := snd sshKeys |} in
          booted <- externalMachine_IsBooted vmCommandExecutor ;;
          if negb booted then ret (requeueAfter (20 * Second), None)
          else
            h <- NewHelper ;;
            match h with
            | Err err => ret (emptyResult, Some err)
            | Ok patchHelper =>
                MarkTrue infrav1.VMProvisionedCondition ;;;
                k <- get_mem ;;
                if negb (conditions.Has k infrav1.BootstrapExecSucceededCondition)
                then
                  MarkFalse infrav1.BootstrapExecSucceededCondition
                    infrav1.BootstrappingReason clusterv1.ConditionSeverityInfo
                    "" ;;;
                  err <- PatchKubevirtMachine patchHelper ;;
                  match err with
                  | Some err =>
                      ret (emptyResult,
                           Some (errors_Wrap err "failed to patch KubevirtMachine"))
                  | None => reconcileBootstrap ctx vmCommandExecutor
                  end
                else reconcileBootstrap ctx vmCommandExecutor
            end
      end
  end.

Definition reconcileNormal (ctx : MachineContext) : M (Result * option error) :=
  k <- get_mem ;;
  match infrav1.Spec_ProviderID k with
  | Some _ =>
      modify (infrav1.set_Ready true) ;;;
      MarkTrue infrav1.VMProvisionedCondition ;;;
      ret (emptyResult, None)
  | None =>
      match clusterv1.Spec_Bootstrap_DataSecretName (ctx_Machine ctx) with
      | None =>
          if negb (util.IsControlPlaneMachine (ctx_Machine ctx))
             && negb (conditions.IsTrue (ctx_Cluster ctx)
                        clusterv1.ControlPlaneInitializedCondition)
          then
            MarkFalse infrav1.VMProvisionedCondition
              clusterv1.WaitingForControlPlaneAvailableReason
              clusterv1.ConditionSeverityInfo "" ;;;
            ret (emptyResult, None)
          else
            MarkFalse infrav1.VMProvisionedCondition
              infrav1.WaitingForBootstrapDataReason
              clusterv1.ConditionSeverityInfo "" ;;;
            ret (emptyResult, None)
      | Some _ =>
          persisted <- ssh_IsPersistedToSecret ctx ;;
          if negb persisted then ret (requeueAfter (10 * Second), None)
          else
            keys <- ssh_FetchPersistedKeysFromSecret ctx ;;
            match keys with
            | Err err =>
                ret (emptyResult,
                     Some (errors_Wrap err
                             "failed to fetch ssh keys for cluster nodes"))
            | Ok clusterNodeSshKeys =>
                err <- reconcileKubevirtBootstrapSecret ctx clusterNodeSshKeys ;;
                match err with
                | Some _ =>
                    MarkFalse infrav1.VMProvisionedCondition
                      infrav1.WaitingForBootstrapDataReason
                      clusterv1.ConditionSeverityInfo "" ;;;
                    ret (emptyResult, None)
                | None => reconcileVM ctx clusterNodeSshKeys
                end
            end
      end
  end.

(** *** reconcileDelete *)

Definition reconcileDelete (ctx : MachineContext) : M (Result * option error) :=
  h <- NewHelper ;;
  match h with
  | Err err => ret (emptyResult, Some err)
  | Ok patchHelper =>
      MarkFalse infrav1.VMProvisionedCondition clusterv1.DeletingReason
        clusterv1.ConditionSeverityInfo "" ;;;
      err <- PatchKubevirtMachine patchHelper ;;
      match err with
      | Some err =>
          ret (emptyResult,
               Some (errors_Wrap err "failed to patch KubevirtMachine"))
      | None =>
          modify (fun k =>
                    controllerutil.RemoveFinalizer k infrav1.MachineFinalizer) ;;;
          ret (emptyResult, None)
      end
  end.

(** *** Reconcile *)

(** [r.Client.Get] into the zero-valued KubevirtMachine. *)
Definition Client_Get_KubevirtMachine (key : ObjectKey) : M (option error) :=
  fun st =>
    let w := record (EvGet KubevirtMachineKind key) (world st) in
    match Get_KubevirtMachine env (world st) key with
    | Ok k => (None, {| mem := k; world := w |})
    | Err e => (Some e, {| mem := mem st; world := w |})
    end.

Definition Client_Get_KubevirtCluster (key : ObjectKey) :
  M (result infrav1.KubevirtCluster) :=
  call (fun _ => EvGet KubevirtClusterKind key)
    (fun w => Get_KubevirtCluster env w key).

Definition util_GetOwnerMachine (meta : metav1.ObjectMeta) :
  M (option clusterv1.Machine * option error) :=
  call (fun _ => EvGetOwnerMachine) (fun w => GetOwnerMachine env w meta).

Definition util_GetClusterFromMetadata (meta : metav1.ObjectMeta) :
  M (option clusterv1.Cluster * option error) :=
  call (fun _ => EvGetClusterFromMetadata)
    (fun w => GetClusterFromMetadata env w meta).

(** Lines 140-159: what runs once the deferred patch is installed. *)
Definition reconcileGuarded (ctx : MachineContext) : M (Result * option error) :=
  k <- get_mem ;;
  if negb (controllerutil.ContainsFinalizer k infrav1.MachineFinalizer) then
    modify (fun k => controllerutil.AddFinalizer k infrav1.MachineFinalizer) ;;;
    ret (emptyResult, None)
  else if negb (clusterv1.Status_InfrastructureReady (ctx_Cluster ctx)) then
    MarkFalse infrav1.VMProvisionedCondition
      infrav1.WaitingForClusterInfrastructureReason
      clusterv1.ConditionSeverityInfo "" ;;;
    ret (emptyResult, None)
  else if negb (metav1.IsZero
                  (metav1.DeletionTimestamp (infrav1.ObjectMeta k))) then
    reconcileDelete ctx
  else reconcileNormal ctx.

(** Lines 131-138: the deferred closure, run on the values being returned. *)
Definition deferredPatch (patchHelper : Helper) (r : Result * option error) :
  M (Result * option error) :=
  err <- PatchKubevirtMachine patchHelper ;;
  match err with
  | Some err =>
      match snd r with
      | None => ret (fst r, Some err)
      | Some rerr => ret (fst r, Some rerr)
      end
  | None => ret r
  end.

(** Lines 67-128: load the objects and create the patch helper.  [inl] ends
    the reconciliation with what it returns, [inr] goes on to the deferred
    patch and the finalizer gate. *)
Definition loadContext (req : Request) :
  M (outcome (Result * option error) + MachineContext * Helper) :=
  err <- Client_Get_KubevirtMachine (NamespacedName req) ;;
  match err with
  | Some err =>
      if IsNotFound (Some err) then ret (inl (Returns (emptyResult, None)))
      else ret (inl (Returns (emptyResult, Some err)))
  | None =>
      kubevirtMachine <- get_mem ;;
      m <- util_GetOwnerMachine (infrav1.ObjectMeta kubevirtMachine) ;;
      match snd m with
      | Some err => ret (inl (Returns (emptyResult, Some err)))
      | None =>
          match fst m with
          | None => ret (inl (Returns (emptyResult, None)))
          | Some machine =>
              c <- util_GetClusterFromMetadata (clusterv1.MachineMeta machine) ;;
              match snd c with
              | Some err => ret (inl (Returns (emptyResult, Some err)))
              | None =>
                  match fst c with
                  | None => ret (inl (Returns (emptyResult, None)))
                  | Some cluster =>
                      match clusterv1.Spec_InfrastructureRef cluster with
                      | None =>
                          ret (inl (Panics
                            "invalid memory address or nil pointer dereference"))
                      | Some infrastructureRefName =>
                          let kubevirtClusterName :=
                            (metav1.Namespace (infrav1.ObjectMeta kubevirtMachine),
                             infrastructureRefName) in
                          kc <- Client_Get_KubevirtCluster kubevirtClusterName ;;
                          match kc with
                          | Err _ => ret (inl (Returns (emptyResult, None)))
                          | Ok kubevirtCluster =>
                              let machineContext :=
                                {| ctx_Cluster := cluster;
                                   ctx_KubevirtCluster := kubevirtCluster;
                                   ctx_Machine := machine |} in
                              h <- NewHelper ;;
                              match h with
                              | Err err =>
                                  ret (inl (Returns (emptyResult, Some err)))
                              | Ok patchHelper =>
                                  ret (inr (machineContext, patchHelper))
                              end
                          end
                      end
                  end
              end
          end
      end
  end.

Definition Reconcile (req : Request) : M (outcome (Result * option error)) :=
  l <- loadContext req ;;
  match l with
  | inl stopped => ret stopped
  | inr (machineContext, patchHelper) =>
      r <- reconcileGuarded machineContext ;;
      r <- deferredPatch patchHelper r ;;
      ret (Returns r)
  end.

(** *** KubevirtClusterToKubevirtMachines *)

Fixpoint requestsFor (items : list clusterv1.Machine) (result : list Request) :
  list Request :=
  match items with
  | [] => result
  | m :: items' =>
      if bool_decide (clusterv1.Spec_InfrastructureRef_Name m = "")
      then requestsFor items' result
      else
        let name :=
          (metav1.Namespace (clusterv1.MachineMeta m),
           metav1.Name (clusterv1.MachineMeta m)) in
        requestsFor items' (result ++ [{| NamespacedName := name |}])
  end.

Definition KubevirtClusterToKubevirtMachines (o : Object) :
  M (outcome (list Request)) :=
  let result : list Request := [] in
  match o with
  | KubevirtClusterObject c =>
      r <- call (fun _ => EvGetOwnerCluster)
             (fun w => GetOwnerCluster env w (infrav1.ClusterObjectMeta c)) ;;
      if IsNotFound (snd r) || isNil (fst r) then ret (Returns result)
      else
        match snd r with
        | Some _ => ret (Returns result)
        | None =>
            match fst r with
            | None => ret (Returns result)
            | Some cluster =>
                let labels : gmap string string :=
                  {[ clusterv1.ClusterLabelName :=
                       metav1.Name (clusterv1.ClusterMeta cluster) ]} in
                l <- call (fun _ => EvList)
                       (fun w =>
                          List_Machines env w
                            (metav1.Namespace (infrav1.ClusterObjectMeta c))
                            labels) ;;
                match l with
                | Err _ => ret (Returns [])
                | Ok items => ret (Returns (requestsFor items result))
                end
            end
        end
  | _ =>
      ret (Panics ("Expected a KubevirtCluster but got a " +:+ typeName o))
  end.

End Reconciler.

(** One invocation of [Reconcile] on a world: the KubevirtMachine starts as
    the zero value. *)
Definition run {A} (m : M A) (w : World) : A * State :=
  m {| mem := infrav1.zero; world := w |}.

(** ** Observations used by the statements *)

Definition isVMCreate (e : Event) : bool :=
  match e with
  | EvVMCreate _ => true
  | _ => false
  end.

Definition isPatch (e : Event) : bool :=
  match e with
  | EvPatch _ _ => true
  | _ => false
  end.

Definition isWrite (e : Event) : bool :=
  match e with
  | EvCreate _ _ | EvUpdate _ _ | EvPatch _ _ | EvVMCreate _ => true
  | _ => false
  end.

(** The object carries condition [t] with the given status and reason. *)
Definition hasCondition (k : infrav1.KubevirtMachine)
  (t : clusterv1.ConditionType) (status : clusterv1.ConditionStatus)
  (reason : string) : Prop :=
  ∃ c, conditions.Get k t = Some c
       ∧ clusterv1.Status c = status ∧ clusterv1.Reason c = reason.

Definition finalizers (k : infrav1.KubevirtMachine) : list string :=
  metav1.Finalizers (infrav1.ObjectMeta k).

(** The state in which an invocation starts on world [w]. *)
Definition start (w : World) : State := {| mem := infrav1.zero; world := w |}.

(** The calls a run from [st] to [st'] added to the trace. *)
Definition emitted (st st' : State) : list Event :=
  drop (length (trace (world st))) (trace (world st')).

(** A patch that carries [Spec.Bootstrapped = true]; other calls carry no
    machine. *)
Definition bootstrappedPatch (e : Event) : Prop :=
  match e with
  | EvPatch k _ => infrav1.Spec_Bootstrapped k = true
  | _ => True
  end.

(** A computation that keeps [Spec.Bootstrapped] once it is true, in memory
    and in every patch it sends. *)
Definition sticky {A} (m : M A) : Prop :=
  ∀ st, infrav1.Spec_Bootstrapped (mem st) = true →
    infrav1.Spec_Bootstrapped (mem (snd (m st))) = true
    ∧ ∃ evs, trace (world (snd (m st))) = (trace (world st) ++ evs)%list
             ∧ Forall bootstrappedPatch evs.

(** An API client whose calls on secrets fail only for what the store
    holds: no transient fault. *)
Definition faultFree (env : Env) : Prop :=
  ∀ w, (∀ k, Get_fault env w k = None)
       ∧ (∀ o, Create_fault env w o = None)
       ∧ (∀ o, Update_fault env w o = None).

(** ** Sample objects and environments *)

Module Sample.

Definition meta (name : string) (finalizers : list string)
  (deleted : option Time) : metav1.ObjectMeta :=
  {| metav1.Name := name; metav1.Namespace := "default"; metav1.UID := "uid-1";
     metav1.Labels := ∅; metav1.Finalizers := finalizers;
     metav1.DeletionTimestamp := deleted; metav1.OwnerReferences := [] |}.

Definition kubevirtMachine (finalizers : list string) (deleted : option Time)
  (providerID : option string) (bootstrapped : bool) :
  infrav1.KubevirtMachine :=
  {| infrav1.APIVersion := "infrastructure.cluster.x-k8s.io/v1alpha4";
     infrav1.Kind := "KubevirtMachine";
     infrav1.ObjectMeta := meta "node-0" finalizers deleted;
     infrav1.Spec_ProviderID := providerID;
     infrav1.Spec_Bootstrapped := bootstrapped;
     infrav1.Status_Ready := false;
     infrav1.Status_Addresses := [];
     infrav1.Status_Conditions := [] |}.

(** A machine just created, one being provisioned, one that has bootstrapped,
    one that is provisioned and one that is being deleted. *)
Definition fresh : infrav1.KubevirtMachine :=
  kubevirtMachine [] None None false.
Definition worker : infrav1.KubevirtMachine :=
  kubevirtMachine [infrav1.MachineFinalizer] None None false.
Definition bootstrapped : infrav1.KubevirtMachine :=
  kubevirtMachine [infrav1.MachineFinalizer] None None true.
Definition provisioned : infrav1.KubevirtMachine :=
  kubevirtMachine [infrav1.MachineFinalizer] None (Some "kubevirt://node-0")
    true.
Definition deleted : infrav1.KubevirtMachine :=
  kubevirtMachine [infrav1.MachineFinalizer] (Some 1700000100) None false.

Definition machine (dataSecretName : option string) : clusterv1.Machine :=
  {| clusterv1.MachineMeta := meta "machine-0" [] None;
     clusterv1.Spec_Bootstrap_DataSecretName := dataSecretName;
     clusterv1.Spec_InfrastructureRef_Name := "node-0" |}.

Definition cluster (infrastructureReady : bool) : clusterv1.Cluster :=
  {| clusterv1.ClusterMeta := meta "cluster-0" [] None;
     clusterv1.Spec_InfrastructureRef := Some "kvcluster";
     clusterv1.Status_InfrastructureReady := infrastructureReady;
     clusterv1.Status_Conditions := [] |}.

Definition kubevirtCluster : infrav1.KubevirtCluster :=
  {| infrav1.ClusterObjectMeta := meta "kvcluster" [] None |}.

Definition ctx (dataSecretName : option string) : MachineContext :=
  {| ctx_Cluster := cluster true;
     ctx_KubevirtCluster := kubevirtCluster;
     ctx_Machine := machine dataSecretName |}.

Definition secret (name : string) (data : gmap string string) : corev1.Secret :=
  {| corev1.SecretMeta := emptyMeta name "default";
     corev1.SecretType := clusterv1.ClusterSecretType;
     corev1.Data := data |}.

Definition conflict : error := ErrOther "conflict".
Definition timeout : error := ErrOther "context deadline exceeded".

(** An environment in which every object is found; what varies is the
    KubevirtMachine that is served, whether its Machine has bootstrap data,
    the answer to the KubevirtCluster fetch, the outcome of every patch,
    whether the SSH keys are persisted and what the two probes of the VM
    say. *)
Definition environment (k : infrav1.KubevirtMachine)
  (dataSecretName : option string)
  (kc : result infrav1.KubevirtCluster) (patched : option error)
  (persisted booted bootstrapped : bool) : Env :=
  {| Now := fun _ => 1700000000;
     Get_KubevirtMachine := fun _ _ => Ok k;
     GetOwnerMachine := fun _ _ => (Some (machine dataSecretName), None);
     GetClusterFromMetadata := fun _ _ => (Some (cluster true), None);
     Get_KubevirtCluster := fun _ _ => kc;
     GetOwnerCluster := fun _ _ => (Some (cluster true), None);
     List_Machines := fun _ _ _ => Ok [machine dataSecretName];
     NewHelper_error := fun _ _ => None;
     Patch := fun _ _ _ => patched;
     Get_fault := fun _ _ => None;
     Create_fault := fun _ _ => None;
     Update_fault := fun _ _ => None;
     IsPersistedToSecret := fun _ _ => persisted;
     FetchPersistedKeysFromSecret := fun _ _ => Ok ("ssh-rsa AAAA", "PRIVATE");
     NewMachine_error := fun _ _ => None;
     Exists := fun _ => false;
     Create := fun _ => None;
     Address := fun _ => "10.0.0.7";
     IsBooted := fun _ _ => booted;
     IsBootstrapped := fun _ _ => bootstrapped;
     SetProviderID := fun _ _ => Ok "kubevirt://node-0";
     RESTConfigFromKubeConfig := fun kubeconfig => Ok kubeconfig;
     client_New := fun _ _ => Ok "workload" |}.

Definition healthy (k : infrav1.KubevirtMachine) : Env :=
  environment k (Some "bootstrap") (Ok kubevirtCluster) None true true true.
Definition failingPatch (k : infrav1.KubevirtMachine) : Env :=
  environment k (Some "bootstrap") (Ok kubevirtCluster) (Some conflict) true
    true true.
Definition scenarioA : Env :=
  environment worker None (Ok kubevirtCluster) None true true true.
Definition scenarioB : Env :=
  environment worker (Some "bootstrap") (Ok kubevirtCluster) None false true
    true.
Definition scenarioC : Env :=
  environment worker (Some "bootstrap") (Ok kubevirtCluster) None true false
    false.
Definition scenarioD : Env :=
  environment worker (Some "bootstrap") (Ok kubevirtCluster) None true true
    false.
Definition clusterUnavailable : Env :=
  environment worker (Some "bootstrap") (Err timeout) None true true true.

Definition emptyWorld : World := {| secrets := ∅; trace := [] |}.

(** A world that holds the generic bootstrap secret, the derived one and the
    workload kubeconfig. *)
Definition bootstrapSecrets : gmap (string * string) corev1.Secret :=
  {[ ("default", "bootstrap") := secret "bootstrap" {[ "value" := "#cloud-config" ]};
     ("default", "bootstrap-userdata") :=
       secret "bootstrap-userdata" {[ "userdata" := "#cloud-config" ]};
     ("default", "kvcluster-kubeconfig") :=
       secret "kvcluster-kubeconfig" {[ "value" := "apiVersion: v1" ]} ]}.

(** A world that holds the generic bootstrap secret only. *)
Definition genericOnly : World :=
  {| secrets :=
       {[ ("default", "bootstrap") :=
            secret "bootstrap" {[ "value" := "#cloud-config" ]} ]};
     trace := [] |}.

Definition readyWorld : World := {| secrets := bootstrapSecrets; trace := [] |}.

Definition request : Request := {| NamespacedName := ("default", "node-0") |}.

Definition entryReads : list Event :=
  [ EvGet KubevirtMachineKind ("default", "node-0");
    EvGetOwnerMachine;
    EvGetClusterFromMetadata;
    EvGet KubevirtClusterKind ("default", "kvcluster") ].

(** The state of an invocation on the empty world once the entry sequence has
    loaded [k]. *)
Definition loaded (k : infrav1.KubevirtMachine) : State :=
  {| mem := k; world := {| secrets := ∅; trace := entryReads |} |}.

Definition inMemory (k : infrav1.KubevirtMachine) (w : World) : State :=
  {| mem := k; world := w |}.

End Sample.

(** ** Further observations *)

(** What one run keeps: an invariant [I] of the machine in memory, a
    predicate [P] that every call it makes satisfies, and a predicate [Q] of
    what it returns. *)
Definition obeys {A} (I : infrav1.KubevirtMachine → Prop) (P : Event → Prop)
  (Q : A → Prop) (m : M A) : Prop :=
  ∀ st, I (mem st) →
    Q (fst (m st)) ∧ I (mem (snd (m st)))
    ∧ ∃ evs, trace (world (snd (m st))) = (trace (world st) ++ evs)%list
             ∧ Forall P evs.

(** A patch that carries the metadata [meta]; other calls carry no machine. *)
Definition patchWithMeta (meta : metav1.ObjectMeta) (e : Event) : Prop :=
  match e with
  | EvPatch k _ => infrav1.ObjectMeta k = meta
  | _ => True
  end.

(** A patch that carries the provider id [p]. *)
Definition patchWithProviderID (p : option string) (e : Event) : Prop :=
  match e with
  | EvPatch k _ => infrav1.Spec_ProviderID k = p
  | _ => True
  end.

(** The delays after which the reconciler asks to be called again. *)
Definition requeueDelays : list Duration :=
  [0; 5 * Second; 10 * Second; 20 * Second].

(** What a reconciliation may return: never the [Requeue] flag, one of the
    four delays, and no delay at all beside an error. *)
Definition disciplined (r : Result * option error) : Prop :=
  Requeue (fst r) = false
  ∧ RequeueAfter (fst r) ∈ requeueDelays
  ∧ (snd r ≠ None → fst r = emptyResult).

(** A call to the VM handle. *)
Definition isVMCall (e : Event) : bool :=
  match e with
  | EvNewMachine | EvExists | EvVMCreate _ | EvAddress | EvIsBooted
  | EvIsBootstrapped | EvSetProviderID => true
  | _ => false
  end.

(** A call that reads or writes a secret. *)
Definition isSecretCall (e : Event) : bool :=
  match e with
  | EvGet SecretKind _ | EvCreate _ _ | EvUpdate _ _ => true
  | _ => false
  end.

(** Every secret is stored under its own namespace and name, as the API
    server stores it. *)
Definition wellFormed (store : gmap (string * string) corev1.Secret) : Prop :=
  ∀ k s, store !! k = Some s → ObjectKeyFromObject s = k.

(** What a Get of the secret [key] answers in world [w]. *)
Definition answer (env : Env) (w : World) (key : string * string) :
  result corev1.Secret :=
  match Get_fault env w key with
  | Some e => Err e
  | None =>
      match secrets w !! key with
      | Some s => Ok s
      | None => Err ErrNotFound
      end
  end.

(** The key of the secret the synthesizer derives for the Machine [m], when
    [m] names a bootstrap data secret. *)
Definition derivedSecretKey (m : clusterv1.Machine) : option (string * string) :=
  match clusterv1.Spec_Bootstrap_DataSecretName m with
  | Some name =>
      Some (metav1.Namespace (clusterv1.MachineMeta m), name +:+ "-userdata")
  | None => None
  end.

(** The secrets [store] is well formed and agrees with [store0] on every key
    but [key]. *)
Definition framed (key : option (string * string))
  (store0 store : gmap (string * string) corev1.Secret) : Prop :=
  wellFormed store ∧ ∀ k, Some k ≠ key → store !! k = store0 !! k.

(** What one run keeps of the secrets: an invariant [S] of the store, and a
    predicate [Q] of what it returns. *)
Definition preserves {A : Type} (S : gmap (string * string) corev1.Secret → Prop)
  (Q : A → Prop) (m : M A) : Prop :=
  ∀ st, S (secrets (world st)) →
    Q (fst (m st)) ∧ S (secrets (world (snd (m st)))).

(** What one run makes of the machine in memory: from a machine that
    satisfies [I] it returns a value and leaves a machine that satisfy [Q]. *)
Definition ensures {A : Type} (I : infrav1.KubevirtMachine → Prop)
  (Q : A → infrav1.KubevirtMachine → Prop) (m : M A) : Prop :=
  ∀ st, I (mem st) → Q (fst (m st)) (mem (snd (m st))).

(** The request the mapper emits for a Machine. *)
Definition requestOf (m : clusterv1.Machine) : Request :=
  {| NamespacedName :=
       (metav1.Namespace (clusterv1.MachineMeta m),
        metav1.Name (clusterv1.MachineMeta m)) |}.


Module Scenario.

(** The environment [e], except that the Cluster it serves has no ready
    infrastructure. *)
Definition infrastructurePending (e : Env) : Env :=
  {| Now := Now e;
     Get_KubevirtMachine := Get_KubevirtMachine e;
     GetOwnerMachine := GetOwnerMachine e;
     GetClusterFromMetadata := fun _ _ => (Some (Sample.cluster false), None);
     Get_KubevirtCluster := Get_KubevirtCluster e;
     GetOwnerCluster := GetOwnerCluster e;
     List_Machines := List_Machines e;
     NewHelper_error := NewHelper_error e;
     Patch := Patch e;
     Get_fault := Get_fault e;
     Create_fault := Create_fault e;
     Update_fault := Update_fault e;
     IsPersistedToSecret := IsPersistedToSecret e;
     FetchPersistedKeysFromSecret := FetchPersistedKeysFromSecret e;
     NewMachine_error := NewMachine_error e;
     Exists := Exists e;
     Create := Create e;
     Address := Address e;
     IsBooted := IsBooted e;
     IsBootstrapped := IsBootstrapped e;
     SetProviderID := SetProviderID e;
     RESTConfigFromKubeConfig := RESTConfigFromKubeConfig e;
     client_New := client_New e |}.

(** The environment [e], except that the VM is there already. *)
Definition existingVM (e : Env) : Env :=
  {| Now := Now e;
     Get_KubevirtMachine := Get_KubevirtMachine e;
     GetOwnerMachine := GetOwnerMachine e;
     GetClusterFromMetadata := GetClusterFromMetadata e;
     Get_KubevirtCluster := Get_KubevirtCluster e;
     GetOwnerCluster := GetOwnerCluster e;
     List_Machines := List_Machines e;
     NewHelper_error := NewHelper_error e;
     Patch := Patch e;
     Get_fault := Get_fault e;
     Create_fault := Create_fault e;
     Update_fault := Update_fault e;
     IsPersistedToSecret := IsPersistedToSecret e;
     FetchPersistedKeysFromSecret := FetchPersistedKeysFromSecret e;
     NewMachine_error := NewMachine_error e;
     Exists := fun _ => true;
     Create := Create e;
     Address := Address e;
     IsBooted := IsBooted e;
     IsBootstrapped := IsBootstrapped e;
     SetProviderID := SetProviderID e;
     RESTConfigFromKubeConfig := RESTConfigFromKubeConfig e;
     client_New := client_New e |}.


(** A provisioned machine that is marked for deletion. *)
Definition retired : infrav1.KubevirtMachine :=
  Sample.kubevirtMachine [infrav1.MachineFinalizer] (Some 1700000100)
    (Some "kubevirt://node-0") true.

End Scenario.
(** ** Conditions *)

Lemma lookup_upsert (now : Time) (c : clusterv1.Condition)
  (cs : clusterv1.Conditions) :
  ∃ time, conditions.lookup (conditions.upsert now c cs) (clusterv1.Type_ c)
          = Some (conditions.stamp time c).
Proof.
  induction cs as [|x cs IH]; simpl.
  - rewrite bool_decide_eq_true_2.
    + destruct (clusterv1.LastTransitionTime c =? 0)%Z eqn:Hz.
      * by exists now.
      * exists (clusterv1.LastTransitionTime c). by destruct c.
    + by destruct (clusterv1.LastTransitionTime c =? 0)%Z.
  - destruct (bool_decide (clusterv1.Type_ x = clusterv1.Type_ c)) eqn:Hx.
    + destruct (bool_decide (clusterv1.Status x = clusterv1.Status c));
        simpl; rewrite bool_decide_eq_true_2 by done; eauto.
    + simpl. rewrite Hx. exact IH.
Qed.

Lemma lookup_upsert_ne (now : Time) (c : clusterv1.Condition)
  (cs : clusterv1.Conditions) (t : clusterv1.ConditionType) :
  clusterv1.Type_ c ≠ t →
  conditions.lookup (conditions.upsert now c cs) t = conditions.lookup cs t.
Proof.
  intros Hne. induction cs as [|x cs IH]; simpl.
  - rewrite bool_decide_eq_false_2; [done|].
    by destruct (clusterv1.LastTransitionTime c =? 0)%Z.
  - destruct (bool_decide (clusterv1.Type_ x = clusterv1.Type_ c)) eqn:Hx.
    + apply bool_decide_eq_true_1 in Hx.
      assert (clusterv1.Type_ x ≠ t) by congruence.
      rewrite (bool_decide_eq_false_2 (clusterv1.Type_ x = t)) by done.
      destruct (bool_decide (clusterv1.Status x = clusterv1.Status c));
        simpl; by rewrite bool_decide_eq_false_2.
    + simpl. by rewrite IH.
Qed.

Lemma MarkFalse_hasCondition (now : Time) (k : infrav1.KubevirtMachine)
  (t : clusterv1.ConditionType) (reason : string)
  (severity : clusterv1.ConditionSeverity) (message : string) :
  hasCondition (conditions.MarkFalse now k t reason severity message) t
    clusterv1.ConditionFalse reason.
Proof.
  destruct (lookup_upsert now
              (conditions.FalseCondition t reason severity message)
              (infrav1.Status_Conditions k)) as [time H].
  exists (conditions.stamp time
            (conditions.FalseCondition t reason severity message)).
  split; [exact H | done].
Qed.

Lemma MarkTrue_hasCondition (now : Time) (k : infrav1.KubevirtMachine)
  (t : clusterv1.ConditionType) :
  hasCondition (conditions.MarkTrue now k t) t clusterv1.ConditionTrue "".
Proof.
  destruct (lookup_upsert now (conditions.TrueCondition t)
              (infrav1.Status_Conditions k)) as [time H].
  exists (conditions.stamp time (conditions.TrueCondition t)).
  split; [exact H | done].
Qed.

Lemma AddFinalizer_contains (k : infrav1.KubevirtMachine) (f : string) :
  controllerutil.ContainsFinalizer (controllerutil.AddFinalizer k f) f = true.
Proof.
  unfold controllerutil.ContainsFinalizer, controllerutil.AddFinalizer.
  destruct (bool_decide (f ∈ metav1.Finalizers (infrav1.ObjectMeta k)))
    eqn:Hin.
  - exact Hin.
  - apply bool_decide_eq_true_2. simpl. set_solver.
Qed.

Lemma RemoveFinalizer_contains (k : infrav1.KubevirtMachine) (f : string) :
  controllerutil.ContainsFinalizer (controllerutil.RemoveFinalizer k f) f
  = false.
Proof.
  unfold controllerutil.ContainsFinalizer, controllerutil.RemoveFinalizer.
  apply bool_decide_eq_false_2. simpl.
  rewrite list_elem_of_filter. tauto.
Qed.

(** ** The calls made by one run *)

Lemma emitted_app (st st' : State) (evs : list Event) :
  trace (world st') = (trace (world st) ++ evs)%list → emitted st st' = evs.
Proof. intros H. unfold emitted. rewrite H. apply drop_app_length. Qed.

(** ** The waits of the normal path *)

(** C4: on the normal path, for a machine that is not yet provisioned and
    whose Machine has no bootstrap data secret, [reconcileNormal] returns the
    empty result and no error, calls no collaborator, and leaves
    VMProvisioned=False with reason WaitingForControlPlaneAvailable when the
    machine is not a control-plane machine and the cluster's
    ControlPlaneInitialized condition is not true, and with reason
    WaitingForBootstrapData otherwise. *)
Theorem reconcileNormal_without_bootstrap_data (env : Env)
  (ctx : MachineContext) (st : State) :
  infrav1.Spec_ProviderID (mem st) = None →
  clusterv1.Spec_Bootstrap_DataSecretName (ctx_Machine ctx) = None →
  let notControlPlane := negb (util.IsControlPlaneMachine (ctx_Machine ctx)) in
  let notInitialized :=
    negb (conditions.IsTrue (ctx_Cluster ctx)
            clusterv1.ControlPlaneInitializedCondition) in
  let st' := snd (reconcileNormal env ctx st) in
  fst (reconcileNormal env ctx st) = (emptyResult, None)
  ∧ RequeueAfter emptyResult = 0 ∧ Requeue emptyResult = false
  ∧ world st' = world st
  ∧ (notControlPlane = true → notInitialized = true →
     hasCondition (mem st') infrav1.VMProvisionedCondition
       clusterv1.ConditionFalse clusterv1.WaitingForControlPlaneAvailableReason)
  ∧ (notControlPlane = false ∨ notInitialized = false →
     hasCondition (mem st') infrav1.VMProvisionedCondition
       clusterv1.ConditionFalse infrav1.WaitingForBootstrapDataReason).
Proof.
  intros Hp Hd. cbv zeta.
  unfold reconcileNormal, bind, get_mem. rewrite Hp, Hd.
  destruct (negb (util.IsControlPlaneMachine (ctx_Machine ctx))) eqn:Hcp;
    destruct (negb (conditions.IsTrue (ctx_Cluster ctx)
                      clusterv1.ControlPlaneInitializedCondition)) eqn:Hci;
    cbn; repeat split; try done;
    try (intros; apply MarkFalse_hasCondition);
    intros [?|?]; try done; apply MarkFalse_hasCondition.
Qed.

(** Scenario A: no bootstrap data, a worker machine, control plane not
    initialized. *)
Lemma reconcileNormal_without_bootstrap_data_witness :
  fst (reconcileNormal Sample.scenarioA (Sample.ctx None)
         (Sample.loaded Sample.worker))
  = (emptyResult, None)
  ∧ hasCondition
      (mem (snd (reconcileNormal Sample.scenarioA (Sample.ctx None)
                   (Sample.loaded Sample.worker))))
      infrav1.VMProvisionedCondition clusterv1.ConditionFalse
      clusterv1.WaitingForControlPlaneAvailableReason.
Proof.
  destruct (reconcileNormal_without_bootstrap_data Sample.scenarioA
              (Sample.ctx None) (Sample.loaded Sample.worker)
              eq_refl eq_refl) as (H1 & _ & _ & _ & H2 & _).
  split; [exact H1 | apply H2; reflexivity].
Defined.

(** C5: on the normal path, once the machine has bootstrap data and no
    provider id, SSH keys that are not persisted make [reconcileNormal] return
    a requeue after exactly 10 seconds and no error; the object in memory,
    hence every condition, is unchanged, the secrets are unchanged, and the
    only call made is the question whether the keys are persisted, so no VM
    is created. *)
Theorem reconcileNormal_ssh_keys_not_persisted (env : Env)
  (ctx : MachineContext) (st : State) (dataSecretName : string) :
  infrav1.Spec_ProviderID (mem st) = None →
  clusterv1.Spec_Bootstrap_DataSecretName (ctx_Machine ctx)
  = Some dataSecretName →
  IsPersistedToSecret env (world st) (ctx_KubevirtCluster ctx) = false →
  let st' := snd (reconcileNormal env ctx st) in
  fst (reconcileNormal env ctx st)
  = ({| Requeue := false; RequeueAfter := 10 * 1000000000 |}, None)
  ∧ mem st' = mem st
  ∧ infrav1.Status_Conditions (mem st') = infrav1.Status_Conditions (mem st)
  ∧ secrets (world st') = secrets (world st)
  ∧ emitted st st' = [EvIsPersistedToSecret]
  ∧ Forall (λ e, isVMCreate e = false) (emitted st st').
Proof.
  intros Hp Hd Hs. cbv zeta.
  unfold reconcileNormal, bind, get_mem. rewrite Hp, Hd.
  unfold ssh_IsPersistedToSecret, call. rewrite Hs. cbn.
  assert (He : emitted st
                 {| mem := mem st;
                    world := record EvIsPersistedToSecret (world st) |}
               = [EvIsPersistedToSecret]) by (by apply emitted_app).
  rewrite He. repeat split; try done.
  by repeat constructor.
Qed.

(** Scenario B: the SSH keys are not persisted yet. *)
Lemma reconcileNormal_ssh_keys_not_persisted_witness :
  fst (reconcileNormal Sample.scenarioB (Sample.ctx (Some "bootstrap"))
         (Sample.loaded Sample.worker))
  = ({| Requeue := false; RequeueAfter := 10000000000 |}, None)
  ∧ mem (snd (reconcileNormal Sample.scenarioB (Sample.ctx (Some "bootstrap"))
                (Sample.loaded Sample.worker)))
    = Sample.worker.
Proof.
  destruct (reconcileNormal_ssh_keys_not_persisted Sample.scenarioB
              (Sample.ctx (Some "bootstrap")) (Sample.loaded Sample.worker)
              "bootstrap" eq_refl eq_refl eq_refl) as (H1 & H2 & _).
  split; [exact H1 | exact H2].
Defined.

(** ** The delete path *)

(** C2: [reconcileDelete] first marks VMProvisioned=False with reason
    Deleting and sends that object, finalizers untouched, in an immediate
    patch, which is the only call it makes.  When the patch fails it returns
    the wrapped error and the finalizer is as present as it was; the finalizer
    is removed only when the patch succeeded.  When the patch helper cannot be
    created, the error is returned and nothing changes. *)
Theorem reconcileDelete_patches_before_removing (env : Env)
  (ctx : MachineContext) (st : State) :
  let marked :=
    conditions.MarkFalse (Now env (world st)) (mem st)
      infrav1.VMProvisionedCondition clusterv1.DeletingReason
      clusterv1.ConditionSeverityInfo "" in
  let patched := Patch env (world st) {| before := mem st |} marked in
  let r := fst (reconcileDelete env ctx st) in
  let st' := snd (reconcileDelete env ctx st) in
  match NewHelper_error env (world st) (mem st) with
  | Some err => r = (emptyResult, Some err) ∧ st' = st
  | None =>
      hasCondition marked infrav1.VMProvisionedCondition
        clusterv1.ConditionFalse clusterv1.DeletingReason
      ∧ finalizers marked = finalizers (mem st)
      ∧ emitted st st' = [EvPatch marked patched]
      ∧ secrets (world st') = secrets (world st)
      ∧ match patched with
        | Some err =>
            r = (emptyResult,
                 Some (errors_Wrap err "failed to patch KubevirtMachine"))
            ∧ mem st' = marked
            ∧ controllerutil.ContainsFinalizer (mem st') infrav1.MachineFinalizer
              = controllerutil.ContainsFinalizer (mem st) infrav1.MachineFinalizer
        | None =>
            r = (emptyResult, None)
            ∧ mem st' = controllerutil.RemoveFinalizer marked
                          infrav1.MachineFinalizer
            ∧ controllerutil.ContainsFinalizer (mem st') infrav1.MachineFinalizer
              = false
        end
  end.
Proof.
  cbv zeta. unfold reconcileDelete, bind, NewHelper.
  destruct (NewHelper_error env (world st) (mem st)) as [err|] eqn:Hh.
  - destruct st; done.
  - split; [apply MarkFalse_hasCondition|].
    split; [done|].
    unfold MarkFalse, bind, peek, modify, PatchKubevirtMachine, get_mem, call.
    cbn.
    destruct (Patch env (world st) {| before := mem st |}
                (conditions.MarkFalse (Now env (world st)) (mem st)
                   infrav1.VMProvisionedCondition clusterv1.DeletingReason
                   clusterv1.ConditionSeverityInfo "")) as [err|] eqn:Hp; cbn.
    + split; [by apply emitted_app|]. repeat split; done.
    + split; [by apply emitted_app|]. repeat split; try done.
      apply RemoveFinalizer_contains.
Qed.

(** ** The entry sequence *)

(** An invocation that gets past the entry sequence has made exactly its four
    reads, holds the fetched machine in memory, and wrote nothing. *)
Lemma loadContext_continues (env : Env) (req : Request) (w : World)
  (ctx : MachineContext) (h : Helper) (st1 : State) :
  run (loadContext env req) w = (inr (ctx, h), st1) →
  Get_KubevirtMachine env w (NamespacedName req) = Ok (mem st1)
  ∧ before h = mem st1
  ∧ secrets (world st1) = secrets w
  ∧ ∃ key,
      trace (world st1)
      = (trace w ++ [EvGet KubevirtMachineKind (NamespacedName req);
                     EvGetOwnerMachine; EvGetClusterFromMetadata;
                     EvGet KubevirtClusterKind key])%list.
Proof.
  unfold run, loadContext, bind, Client_Get_KubevirtMachine, get_mem,
    util_GetOwnerMachine, util_GetClusterFromMetadata,
    Client_Get_KubevirtCluster, NewHelper, call, ret.
  cbn.
  destruct (Get_KubevirtMachine env w (NamespacedName req)) as [k|e] eqn:Hk;
    cbn; [|destruct e; discriminate].
  destruct (GetOwnerMachine env _ _) as [[m|] [e|]]; cbn; try discriminate.
  destruct (GetClusterFromMetadata env _ _) as [[c|] [e|]]; cbn;
    try discriminate.
  destruct (clusterv1.Spec_InfrastructureRef c) as [n|]; cbn;
    try discriminate.
  destruct (Get_KubevirtCluster env _ _) as [kc|e]; cbn; try discriminate.
  destruct (NewHelper_error env _ _) as [e|]; cbn; try discriminate.
  intros [= <- <- <-]. cbn. repeat split; try done.
  eexists. unfold record. cbn. rewrite <- !app_assoc. reflexivity.
Qed.

(** ** The deferred status patch *)

(** Past the entry sequence, [Reconcile] is the guarded part followed by the
    deferred closure. *)
Lemma Reconcile_continues (env : Env) (req : Request) (w : World)
  (ctx : MachineContext) (h : Helper) (st1 : State) :
  run (loadContext env req) w = (inr (ctx, h), st1) →
  run (Reconcile env req) w
  = let '(r, st2) := reconcileGuarded env ctx st1 in
    let '(r', st3) := deferredPatch env h r st2 in
    (Returns r', st3).
Proof.
  intros Hl. unfold run, Reconcile, bind in *. rewrite Hl.
  destruct (reconcileGuarded env ctx st1) as [r st2].
  by destruct (deferredPatch env h r st2).
Qed.

(** C3: an invocation that reaches the deferred patch sends the object as it
    stands at return in one patch, which is the last call of the invocation
    and the only one made after the branch taken has returned; the result is
    the one of that branch, and so is the error when the branch produced one;
    the outcome of the patch is returned as the error only when the branch
    produced none. *)
Theorem Reconcile_deferred_patch (env : Env) (req : Request) (w : World)
  (ctx : MachineContext) (h : Helper) (st1 : State) :
  run (loadContext env req) w = (inr (ctx, h), st1) →
  let r := fst (reconcileGuarded env ctx st1) in
  let st2 := snd (reconcileGuarded env ctx st1) in
  let patched := Patch env (world st2) h (mem st2) in
  let st3 := snd (run (Reconcile env req) w) in
  fst (run (Reconcile env req) w)
  = Returns (fst r,
             match snd r with
             | Some rerr => Some rerr
             | None => patched
             end)
  ∧ mem st3 = mem st2
  ∧ secrets (world st3) = secrets (world st2)
  ∧ emitted st2 st3 = [EvPatch (mem st2) patched].
Proof.
  intros Hl. cbv zeta. rewrite (Reconcile_continues env req w ctx h st1 Hl).
  destruct (reconcileGuarded env ctx st1) as [[res rerr] st2]. cbn.
  unfold deferredPatch, bind, PatchKubevirtMachine, get_mem, call. cbn.
  destruct (Patch env (world st2) h (mem st2)) as [e|];
    destruct rerr as [rerr|]; cbn; repeat split; by apply emitted_app.
Qed.

(** A machine being deleted whose patches all fail: the delete path's wrapped
    error is returned, not the error of the deferred patch. *)
Lemma Reconcile_deferred_patch_witness :
  fst (run (Reconcile (Sample.failingPatch Sample.deleted) Sample.request)
         Sample.emptyWorld)
  = Returns (emptyResult,
             Some (ErrWrap Sample.conflict "failed to patch KubevirtMachine")).
Proof.
  destruct (Reconcile_deferred_patch (Sample.failingPatch Sample.deleted)
              Sample.request Sample.emptyWorld (Sample.ctx (Some "bootstrap"))
              {| before := Sample.deleted |} (Sample.loaded Sample.deleted)
              eq_refl) as (H & _).
  exact H.
Defined.

(** ** The finalizer gate *)

(** C1, as stated, fails: the machine has no finalizer, the entry sequence
    succeeds, the finalizer is added, and the deferred patch fails; [Reconcile]
    then returns that patch's error and not nil. *)
Lemma Reconcile_finalizer_gate_patch_failure :
  controllerutil.ContainsFinalizer Sample.fresh infrav1.MachineFinalizer = false
  ∧ Get_KubevirtMachine (Sample.failingPatch Sample.fresh) Sample.emptyWorld
      (NamespacedName Sample.request)
    = Ok Sample.fresh
  ∧ fst (run (Reconcile (Sample.failingPatch Sample.fresh) Sample.request)
           Sample.emptyWorld)
    = Returns (emptyResult, Some Sample.conflict)
  ∧ fst (run (Reconcile (Sample.failingPatch Sample.fresh) Sample.request)
           Sample.emptyWorld)
    ≠ Returns (emptyResult, None).
Proof. repeat split; try reflexivity. vm_compute. discriminate. Qed.

(** C1 (amended): an invocation that reaches the finalizer gate with the
    finalizer absent adds the finalizer and returns at once: the gate returns
    the empty result and no error and calls nothing; the invocation then ends
    with the deferred patch, which carries the finalizer, and returns the empty
    result with that patch's outcome as its error, nil when the patch succeeds.
    The calls of the whole invocation are the four reads of the entry sequence
    and that patch: no VM creation call occurs. *)
Theorem Reconcile_finalizer_gate (env : Env) (req : Request) (w : World)
  (ctx : MachineContext) (h : Helper) (st1 : State) :
  run (loadContext env req) w = (inr (ctx, h), st1) →
  controllerutil.ContainsFinalizer (mem st1) infrav1.MachineFinalizer = false →
  let added :=
    controllerutil.AddFinalizer (mem st1) infrav1.MachineFinalizer in
  let patched := Patch env (world st1) h added in
  let st3 := snd (run (Reconcile env req) w) in
  reconcileGuarded env ctx st1
  = ((emptyResult, None), {| mem := added; world := world st1 |})
  ∧ fst (run (Reconcile env req) w) = Returns (emptyResult, patched)
  ∧ mem st3 = added
  ∧ controllerutil.ContainsFinalizer (mem st3) infrav1.MachineFinalizer = true
  ∧ (∃ key,
       emitted (start w) st3
       = [EvGet KubevirtMachineKind (NamespacedName req); EvGetOwnerMachine;
          EvGetClusterFromMetadata; EvGet KubevirtClusterKind key;
          EvPatch added patched])
  ∧ Forall (λ e, isVMCreate e = false) (emitted (start w) st3).
Proof.
  intros Hl Hf. cbv zeta.
  assert (Hg : reconcileGuarded env ctx st1
               = ((emptyResult, None),
                  {| mem := controllerutil.AddFinalizer (mem st1)
                              infrav1.MachineFinalizer;
                     world := world st1 |})).
  { unfold reconcileGuarded, bind, get_mem. rewrite Hf. reflexivity. }
  pose proof (Reconcile_continues env req w ctx h st1 Hl) as Hr.
  rewrite Hg in Hr.
  unfold deferredPatch, bind, PatchKubevirtMachine, get_mem, call in Hr.
  cbn in Hr.
  destruct (loadContext_continues env req w ctx h st1 Hl)
    as (_ & _ & _ & key & Hk).
  destruct (Patch env (world st1) h
              (controllerutil.AddFinalizer (mem st1) infrav1.MachineFinalizer))
    as [e|] eqn:Hp; cbn in Hr; rewrite Hr; cbn.
  all: split; [exact Hg|]; split; [done|]; split; [done|].
  all: split; [apply AddFinalizer_contains|].
  all: erewrite emitted_app;
    [|cbn; rewrite Hk, <- app_assoc; cbn; reflexivity].
  all: split; [by exists key | by repeat constructor].
Qed.

(** A machine without finalizer in an environment whose patches succeed. *)
Lemma Reconcile_finalizer_gate_witness :
  fst (run (Reconcile (Sample.healthy Sample.fresh) Sample.request)
         Sample.emptyWorld)
  = Returns (emptyResult, None)
  ∧ finalizers
      (mem (snd (run (Reconcile (Sample.healthy Sample.fresh) Sample.request)
                   Sample.emptyWorld)))
    = [infrav1.MachineFinalizer].
Proof.
  destruct (Reconcile_finalizer_gate (Sample.healthy Sample.fresh)
              Sample.request Sample.emptyWorld (Sample.ctx (Some "bootstrap"))
              {| before := Sample.fresh |} (Sample.loaded Sample.fresh)
              eq_refl eq_refl) as (_ & H1 & H2 & _).
  split; [exact H1 | rewrite H2; reflexivity].
Defined.

(** ** The early exit of a provisioned machine *)

Lemma reconcileNormal_provisioned (env : Env) (ctx : MachineContext)
  (st : State) (providerID : string) :
  infrav1.Spec_ProviderID (mem st) = Some providerID →
  reconcileNormal env ctx st
  = ((emptyResult, None),
     {| mem := conditions.MarkTrue (Now env (world st))
                 (infrav1.set_Ready true (mem st))
                 infrav1.VMProvisionedCondition;
        world := world st |}).
Proof.
  intros Hp. unfold reconcileNormal, bind, get_mem. rewrite Hp. reflexivity.
Qed.

(** C8, as stated, fails: for a machine whose provider id is set, the
    invocation makes four reads besides the terminal status patch. *)
Lemma Reconcile_provisioned_reads :
  infrav1.Spec_ProviderID Sample.provisioned = Some "kubevirt://node-0"
  ∧ filter (λ e, isPatch e = false)
      (emitted (start Sample.emptyWorld)
         (snd (run (Reconcile (Sample.healthy Sample.provisioned)
                      Sample.request)
                 Sample.emptyWorld)))
    = [ EvGet KubevirtMachineKind ("default", "node-0");
        EvGetOwnerMachine;
        EvGetClusterFromMetadata;
        EvGet KubevirtClusterKind ("default", "kvcluster") ].
Proof. split; reflexivity. Qed.

(** C8 (amended): for a machine whose provider id is set at entry to the
    normal path, the normal path calls no collaborator: it only forces
    ready=true and VMProvisioned=True and returns the empty result and no
    error.  The invocation as a whole makes the four reads of the entry
    sequence and the terminal status patch, and nothing else; the secrets are
    unchanged. *)
Theorem Reconcile_provisioned (env : Env) (req : Request) (w : World)
  (ctx : MachineContext) (h : Helper) (st1 : State) (providerID : string) :
  run (loadContext env req) w = (inr (ctx, h), st1) →
  controllerutil.ContainsFinalizer (mem st1) infrav1.MachineFinalizer = true →
  clusterv1.Status_InfrastructureReady (ctx_Cluster ctx) = true →
  metav1.IsZero (metav1.DeletionTimestamp (infrav1.ObjectMeta (mem st1)))
  = true →
  infrav1.Spec_ProviderID (mem st1) = Some providerID →
  let forced :=
    conditions.MarkTrue (Now env (world st1))
      (infrav1.set_Ready true (mem st1)) infrav1.VMProvisionedCondition in
  let patched := Patch env (world st1) h forced in
  let st3 := snd (run (Reconcile env req) w) in
  reconcileNormal env ctx st1
  = ((emptyResult, None), {| mem := forced; world := world st1 |})
  ∧ infrav1.Status_Ready forced = true
  ∧ hasCondition forced infrav1.VMProvisionedCondition
      clusterv1.ConditionTrue ""
  ∧ infrav1.Spec_ProviderID forced = Some providerID
  ∧ fst (run (Reconcile env req) w) = Returns (emptyResult, patched)
  ∧ mem st3 = forced
  ∧ secrets (world st3) = secrets w
  ∧ ∃ key,
      emitted (start w) st3
      = [EvGet KubevirtMachineKind (NamespacedName req); EvGetOwnerMachine;
         EvGetClusterFromMetadata; EvGet KubevirtClusterKind key;
         EvPatch forced patched].
Proof.
  intros Hl Hf Hi Hd Hp. cbv zeta.
  pose proof (reconcileNormal_provisioned env ctx st1 providerID Hp) as Hn.
  assert (Hg : reconcileGuarded env ctx st1 = reconcileNormal env ctx st1).
  { unfold reconcileGuarded, bind, get_mem. rewrite Hf, Hi. cbn.
    by rewrite Hd. }
  pose proof (Reconcile_continues env req w ctx h st1 Hl) as Hr.
  rewrite Hg, Hn in Hr.
  unfold deferredPatch, bind, PatchKubevirtMachine, get_mem, call in Hr.
  cbn in Hr.
  destruct (loadContext_continues env req w ctx h st1 Hl)
    as (_ & _ & Hs1 & key & Hk).
  split; [exact Hn|]. split; [done|].
  split; [apply MarkTrue_hasCondition|]. split; [exact Hp|].
  destruct (Patch env (world st1) h
              (conditions.MarkTrue (Now env (world st1))
                 (infrav1.set_Ready true (mem st1))
                 infrav1.VMProvisionedCondition))
    as [e|] eqn:Hpatch; cbn in Hr; rewrite Hr; cbn.
  all: split; [done|]; split; [done|]; split; [exact Hs1|].
  all: exists key; apply emitted_app; cbn; rewrite Hk, <- app_assoc;
    reflexivity.
Qed.

(** A provisioned machine in a healthy environment. *)
Lemma Reconcile_provisioned_witness :
  fst (run (Reconcile (Sample.healthy Sample.provisioned) Sample.request)
         Sample.emptyWorld)
  = Returns (emptyResult, None)
  ∧ infrav1.Status_Ready
      (mem (snd (run (Reconcile (Sample.healthy Sample.provisioned)
                        Sample.request)
                   Sample.emptyWorld)))
    = true.
Proof.
  destruct (Reconcile_provisioned (Sample.healthy Sample.provisioned)
              Sample.request Sample.emptyWorld (Sample.ctx (Some "bootstrap"))
              {| before := Sample.provisioned |}
              (Sample.loaded Sample.provisioned) "kubevirt://node-0"
              eq_refl eq_refl eq_refl eq_refl eq_refl)
    as (_ & _ & _ & _ & H1 & H2 & _).
  split; [exact H1 | rewrite H2; reflexivity].
Defined.

(** ** The fetch of the KubevirtCluster *)

(** C10: once the KubevirtMachine, its Machine and the Cluster are loaded,
    whatever error the fetch of the KubevirtCluster gives, NotFound or any
    other, [Reconcile] returns the empty result and no error; the fetch is its
    last call, so nothing is patched. *)
Theorem Reconcile_KubevirtCluster_fetch_error (env : Env) (req : Request)
  (w : World) (k : infrav1.KubevirtMachine) (machine : clusterv1.Machine)
  (cluster : clusterv1.Cluster) (name : string) (err : error) :
  let w1 := record (EvGet KubevirtMachineKind (NamespacedName req)) w in
  let w2 := record EvGetOwnerMachine w1 in
  let w3 := record EvGetClusterFromMetadata w2 in
  let key := (metav1.Namespace (infrav1.ObjectMeta k), name) in
  Get_KubevirtMachine env w (NamespacedName req) = Ok k →
  GetOwnerMachine env w1 (infrav1.ObjectMeta k) = (Some machine, None) →
  GetClusterFromMetadata env w2 (clusterv1.MachineMeta machine)
  = (Some cluster, None) →
  clusterv1.Spec_InfrastructureRef cluster = Some name →
  Get_KubevirtCluster env w3 key = Err err →
  run (Reconcile env req) w
  = (Returns (emptyResult, None),
     {| mem := k; world := record (EvGet KubevirtClusterKind key) w3 |}).
Proof.
  cbv zeta. intros Hk Hm Hc Hn He.
  unfold run, Reconcile, loadContext, bind, Client_Get_KubevirtMachine,
    get_mem, util_GetOwnerMachine, util_GetClusterFromMetadata,
    Client_Get_KubevirtCluster, call.
  unfold record in *. cbn in *.
  rewrite Hk. cbn. rewrite Hm. cbn. rewrite Hc. cbn. rewrite Hn. cbn.
  rewrite He. reflexivity.
Qed.

(** The fetch of the KubevirtCluster times out. *)
Lemma Reconcile_KubevirtCluster_fetch_error_witness :
  fst (run (Reconcile Sample.clusterUnavailable Sample.request)
         Sample.emptyWorld)
  = Returns (emptyResult, None).
Proof.
  rewrite (Reconcile_KubevirtCluster_fetch_error Sample.clusterUnavailable
             Sample.request Sample.emptyWorld Sample.worker
             (Sample.machine (Some "bootstrap")) (Sample.cluster true)
             "kvcluster" Sample.timeout
             eq_refl eq_refl eq_refl eq_refl eq_refl).
  reflexivity.
Defined.

(** ** The cluster-to-machines mapper *)

(** C9: [KubevirtClusterToKubevirtMachines] panics, without calling anything,
    when its argument is not a KubevirtCluster, and returns a list of
    requests, possibly empty, for every KubevirtCluster. *)
Theorem KubevirtClusterToKubevirtMachines_panics (env : Env) (o : Object)
  (st : State) :
  match o with
  | KubevirtClusterObject c =>
      ∃ requests,
        fst (KubevirtClusterToKubevirtMachines env o st) = Returns requests
  | _ =>
      KubevirtClusterToKubevirtMachines env o st
      = (Panics ("Expected a KubevirtCluster but got a " +:+ typeName o), st)
  end.
Proof.
  destruct o; try reflexivity.
  unfold KubevirtClusterToKubevirtMachines, bind, call, ret. cbn.
  destruct (GetOwnerCluster env _ _) as [[cluster|] [e|]]; cbn;
    try (destruct e; cbn); eauto.
  destruct (List_Machines env _ _ _); cbn; eauto.
Qed.

(** ** The bootstrap secret synthesizer *)

Lemma reconcileKubevirtBootstrapSecret_exists (env : Env)
  (ctx : MachineContext) (sshKeys : string * string) (st : State)
  (dataSecretName : string) (s : corev1.Secret) :
  let key :=
    (metav1.Namespace (clusterv1.MachineMeta (ctx_Machine ctx)),
     dataSecretName +:+ "-userdata") in
  clusterv1.Spec_Bootstrap_DataSecretName (ctx_Machine ctx)
  = Some dataSecretName →
  secrets (world st) !! key = Some s →
  Get_fault env (world st) key = None →
  reconcileKubevirtBootstrapSecret env ctx sshKeys st
  = (None, {| mem := mem st; world := record (EvGet SecretKind key) (world st) |}).
Proof.
  cbv zeta. intros Hd Hs Hf.
  unfold reconcileKubevirtBootstrapSecret. rewrite Hd.
  unfold bind, Client_Get, call. rewrite Hf, Hs. reflexivity.
Qed.


(** ** The synthesizer from any state *)

Section Synthesizer.

Variable env : Env.
Variable ctx : MachineContext.
Variable sshKeys : string * string.
Variable n : string.

Hypothesis faultFree_env : faultFree env.
Hypothesis dataSecretName_n :
  clusterv1.Spec_Bootstrap_DataSecretName (ctx_Machine ctx) = Some n.

Let ns : string := metav1.Namespace (clusterv1.MachineMeta (ctx_Machine ctx)).
Let derivedKey : string * string := (ns, n +:+ "-userdata").
Let genericKey : string * string := (ns, n).

Ltac synth_run :=
  unfold reconcileKubevirtBootstrapSecret; rewrite dataSecretName_n;
  unfold bind, Client_Get, call, CreateOrUpdate, mutate, bind, Client_Get,
    Client_Create, call, get_mem, ret, ObjectKeyFromObject.

Lemma Get_fault_free (w : World) (k : string * string) :
  Get_fault env w k = None.
Proof. apply faultFree_env. Qed.

Lemma Create_fault_free (w : World) (o : corev1.Secret) :
  Create_fault env w o = None.
Proof. apply faultFree_env. Qed.

(** Nothing to derive from: the two reads, an error, no write. *)
Lemma synthesizer_reads_only (st : State) :
  secrets (world st) !! derivedKey = None →
  (∀ s, secrets (world st) !! genericKey = Some s →
        corev1.Data s !! "value" = None) →
  ∃ err,
    reconcileKubevirtBootstrapSecret env ctx sshKeys st
    = (Some err,
       {| mem := mem st;
          world := record (EvGet SecretKind genericKey)
                     (record (EvGet SecretKind derivedKey) (world st)) |}).
Proof.
  subst derivedKey genericKey ns. intros Hdk Hnone. synth_run.
  cbn -[lookup insert]. rewrite !Get_fault_free, Hdk. cbn -[lookup insert].
  rewrite Get_fault_free.
  destruct (secrets (world st)
              !! (metav1.Namespace (clusterv1.MachineMeta (ctx_Machine ctx)),
                  n)) as [s|] eqn:Hgk; cbn -[lookup insert].
  - rewrite (Hnone s eq_refl). cbn. eauto.
  - eauto.
Qed.

(** The generic secret is there and the derived one is not: the inner
    create-or-update stores the derived secret. *)
Lemma synthesizer_creates (st : State) (s : corev1.Secret) (value : string) :
  secrets (world st) !! derivedKey = None →
  secrets (world st) !! genericKey = Some s →
  metav1.Name (corev1.SecretMeta s) = n →
  corev1.Data s !! "value" = Some value →
  mem (snd (reconcileKubevirtBootstrapSecret env ctx sshKeys st)) = mem st
  ∧ is_Some
      (secrets
         (world (snd (reconcileKubevirtBootstrapSecret env ctx sshKeys st)))
       !! derivedKey).
Proof.
  subst derivedKey genericKey ns. intros Hdk Hgk Hn Hv. synth_run.
  repeat (progress (rewrite ?Get_fault_free, ?Create_fault_free, ?Hdk, ?Hgk,
                      ?Hv, ?Hn, ?lookup_insert_eq;
                    rewrite ?bool_decide_eq_true_2 by done;
                    cbn -[lookup insert])).
  split; [done | by eexists].
Qed.

(** Whatever the first invocation did, a second one with the secrets as the
    first left them only reads. *)
Lemma synthesizer_second_run (st : State) :
  (∀ s, secrets (world st) !! genericKey = Some s →
        metav1.Name (corev1.SecretMeta s) = n) →
  let st1 := snd (reconcileKubevirtBootstrapSecret env ctx sshKeys st) in
  let st2 := snd (reconcileKubevirtBootstrapSecret env ctx sshKeys st1) in
  secrets (world st2) = secrets (world st1)
  ∧ mem st2 = mem st
  ∧ Forall (λ e, isWrite e = false) (emitted st1 st2).
Proof.
  intros Hwf. cbv zeta.
  assert (Hexists : ∀ st0 d,
            secrets (world st0) !! derivedKey = Some d →
            let st' := snd (reconcileKubevirtBootstrapSecret env ctx sshKeys st0) in
            secrets (world st') = secrets (world st0)
            ∧ mem st' = mem st0
            ∧ Forall (λ e, isWrite e = false) (emitted st0 st')).
  { intros st0 d Hd0. cbv zeta.
    rewrite (reconcileKubevirtBootstrapSecret_exists env ctx sshKeys st0 n d
               dataSecretName_n Hd0 (Get_fault_free _ _)).
    cbn [snd]. split; [done|]. split; [done|].
    erewrite emitted_app; [|reflexivity]. by repeat constructor. }
  assert (Hnothing : ∀ st0,
            secrets (world st0) !! derivedKey = None →
            (∀ s, secrets (world st0) !! genericKey = Some s →
                  corev1.Data s !! "value" = None) →
            let st' := snd (reconcileKubevirtBootstrapSecret env ctx sshKeys st0) in
            secrets (world st') = secrets (world st0)
            ∧ mem st' = mem st0
            ∧ Forall (λ e, isWrite e = false) (emitted st0 st')).
  { intros st0 Hd0 Hn0. cbv zeta.
    destruct (synthesizer_reads_only st0 Hd0 Hn0) as [err ->].
    cbn [snd]. split; [done|]. split; [done|].
    erewrite emitted_app; [|cbn; rewrite <- app_assoc; reflexivity].
    by repeat constructor. }
  destruct (secrets (world st) !! derivedKey) as [d|] eqn:Hdk.
  - destruct (Hexists st d Hdk) as (Hs1 & Hm1 & _).
    assert (Hdk1 : secrets
                     (world (snd (reconcileKubevirtBootstrapSecret env ctx
                                    sshKeys st)))
                   !! derivedKey = Some d) by (by rewrite Hs1).
    destruct (Hexists _ d Hdk1) as (Hs2 & Hm2 & Hw2).
    split; [exact Hs2|]. split; [by rewrite Hm2|exact Hw2].
  - destruct (secrets (world st) !! genericKey) as [s|] eqn:Hgk.
    + destruct (corev1.Data s !! "value") as [value|] eqn:Hv.
      * destruct (synthesizer_creates st s value Hdk Hgk (Hwf s eq_refl) Hv)
          as (Hm1 & d & Hdk1).
        destruct (Hexists _ d Hdk1) as (Hs2 & Hm2 & Hw2).
        split; [exact Hs2|]. split; [by rewrite Hm2|exact Hw2].
      * assert (Hn0 : ∀ s0, secrets (world st) !! genericKey = Some s0 →
                            corev1.Data s0 !! "value" = None).
        { intros s0 Hs0. rewrite Hgk in Hs0. by injection Hs0 as <-. }
        destruct (Hnothing st Hdk Hn0) as (Hs1 & Hm1 & _).
        rewrite <- Hs1 in Hdk, Hn0.
        destruct (Hnothing _ Hdk Hn0) as (Hs2 & Hm2 & Hw2).
        split; [exact Hs2|]. split; [by rewrite Hm2|exact Hw2].
    + assert (Hn0 : ∀ s0, secrets (world st) !! genericKey = Some s0 →
                          corev1.Data s0 !! "value" = None).
      { intros s0 Hs0. by rewrite Hgk in Hs0. }
      destruct (Hnothing st Hdk Hn0) as (Hs1 & Hm1 & _).
      rewrite <- Hs1 in Hdk, Hn0.
      destruct (Hnothing _ Hdk Hn0) as (Hs2 & Hm2 & Hw2).
      split; [exact Hs2|]. split; [by rewrite Hm2|exact Hw2].
Qed.

End Synthesizer.

(** C7: when the derived secret [<dataSecretName>-userdata] exists and can be
    read, [reconcileKubevirtBootstrapSecret] returns no error and its only
    call is the read of that secret: no create, no update, the secrets and
    the machine in memory unchanged.  Hence, with an API client without
    transient faults and secrets stored under their own names, a second
    invocation that finds the secrets as the first one left them sends no
    write and leaves the secrets and the machine as the first one left
    them. *)
Theorem reconcileKubevirtBootstrapSecret_idempotent (env : Env)
  (ctx : MachineContext) (sshKeys : string * string) (st : State)
  (dataSecretName : string) :
  let namespace := metav1.Namespace (clusterv1.MachineMeta (ctx_Machine ctx)) in
  let derivedKey := (namespace, dataSecretName +:+ "-userdata") in
  let once := reconcileKubevirtBootstrapSecret env ctx sshKeys st in
  let twice := reconcileKubevirtBootstrapSecret env ctx sshKeys (snd once) in
  clusterv1.Spec_Bootstrap_DataSecretName (ctx_Machine ctx)
  = Some dataSecretName →
  (∀ s, secrets (world st) !! derivedKey = Some s →
        Get_fault env (world st) derivedKey = None →
        fst once = None
        ∧ emitted st (snd once) = [EvGet SecretKind derivedKey]
        ∧ secrets (world (snd once)) = secrets (world st)
        ∧ mem (snd once) = mem st)
  ∧ (faultFree env →
     (∀ s, secrets (world st) !! (namespace, dataSecretName) = Some s →
           metav1.Name (corev1.SecretMeta s) = dataSecretName) →
     secrets (world (snd twice)) = secrets (world (snd once))
     ∧ mem (snd twice) = mem st
     ∧ Forall (λ e, isWrite e = false) (emitted (snd once) (snd twice))).
Proof.
  cbv zeta. intros Hd. split.
  - intros s Hs Hf.
    rewrite (reconcileKubevirtBootstrapSecret_exists env ctx sshKeys st
               dataSecretName s Hd Hs Hf).
    cbn [fst snd]. split; [done|]. split; [by apply emitted_app|]. done.
  - intros Hff Hwf.
    exact (synthesizer_second_run env ctx sshKeys dataSecretName Hff Hd st Hwf).
Qed.

(** With the derived secret in the store the synthesizer only reads it; from
    a store that holds the generic secret only, the second invocation sends
    no write. *)
Lemma reconcileKubevirtBootstrapSecret_idempotent_witness :
  (fst (reconcileKubevirtBootstrapSecret (Sample.healthy Sample.worker)
          (Sample.ctx (Some "bootstrap")) ("ssh-rsa AAAA", "PRIVATE")
          (Sample.inMemory Sample.worker Sample.readyWorld))
   = None
   ∧ secrets
       (world
          (snd (reconcileKubevirtBootstrapSecret (Sample.healthy Sample.worker)
                  (Sample.ctx (Some "bootstrap")) ("ssh-rsa AAAA", "PRIVATE")
                  (Sample.inMemory Sample.worker Sample.readyWorld))))
     = Sample.bootstrapSecrets)
  ∧ Forall (λ e, isWrite e = false)
      (emitted
         (snd (reconcileKubevirtBootstrapSecret (Sample.healthy Sample.worker)
                 (Sample.ctx (Some "bootstrap")) ("ssh-rsa AAAA", "PRIVATE")
                 (Sample.inMemory Sample.worker Sample.genericOnly)))
         (snd (reconcileKubevirtBootstrapSecret (Sample.healthy Sample.worker)
                 (Sample.ctx (Some "bootstrap")) ("ssh-rsa AAAA", "PRIVATE")
                 (snd (reconcileKubevirtBootstrapSecret
                         (Sample.healthy Sample.worker)
                         (Sample.ctx (Some "bootstrap"))
                         ("ssh-rsa AAAA", "PRIVATE")
                         (Sample.inMemory Sample.worker
                            Sample.genericOnly)))))).
Proof.
  split.
  - destruct (reconcileKubevirtBootstrapSecret_idempotent
                (Sample.healthy Sample.worker) (Sample.ctx (Some "bootstrap"))
                ("ssh-rsa AAAA", "PRIVATE")
                (Sample.inMemory Sample.worker Sample.readyWorld)
                "bootstrap" eq_refl) as (H & _).
    destruct (H (Sample.secret "bootstrap-userdata"
                   {[ "userdata" := "#cloud-config" ]})
                eq_refl eq_refl) as (H1 & _ & H2 & _).
    split; [exact H1 | exact H2].
  - destruct (reconcileKubevirtBootstrapSecret_idempotent
                (Sample.healthy Sample.worker) (Sample.ctx (Some "bootstrap"))
                ("ssh-rsa AAAA", "PRIVATE")
                (Sample.inMemory Sample.worker Sample.genericOnly)
                "bootstrap" eq_refl) as (_ & H).
    destruct (H (λ _, conj (λ _, eq_refl) (conj (λ _, eq_refl) (λ _, eq_refl))))
      as (_ & _ & H3).
    + intros s Hs. vm_compute in Hs. injection Hs as <-. reflexivity.
    + exact H3.
Defined.


(** ** Bootstrapped is sticky *)

Section Sticky.

Variable env : Env.

Lemma sticky_ret {A} (a : A) : sticky (ret a).
Proof.
  intros st Hb. split; [exact Hb|]. exists []. split; [|constructor].
  cbn. by rewrite app_nil_r.
Qed.

Lemma sticky_bind {A B} (m : M A) (k : A → M B) :
  sticky m → (∀ a, sticky (k a)) → sticky (bind m k).
Proof.
  intros Hm Hk st Hb. unfold bind.
  specialize (Hm st Hb). destruct (m st) as [a st']. cbn in Hm.
  destruct Hm as (Hb' & evs & Ht & Hf).
  destruct (Hk a st' Hb') as (Hb'' & evs' & Ht' & Hf').
  split; [exact Hb''|]. exists (evs ++ evs')%list.
  split; [by rewrite Ht', Ht, app_assoc | by apply Forall_app].
Qed.

Lemma sticky_get_mem : sticky get_mem.
Proof. apply (sticky_ret tt). Qed.

Lemma sticky_peek {A} (ask : World → A) : sticky (peek ask).
Proof. apply (sticky_ret tt). Qed.

Lemma sticky_modify (f : infrav1.KubevirtMachine → infrav1.KubevirtMachine) :
  (∀ k, infrav1.Spec_Bootstrapped k = true →
        infrav1.Spec_Bootstrapped (f k) = true) →
  sticky (modify f).
Proof.
  intros Hf st Hb. split; [by apply Hf|]. exists []. split; [|constructor].
  cbn. by rewrite app_nil_r.
Qed.

Lemma sticky_call {A} (e : A → Event) (ask : World → A) :
  (∀ a, bootstrappedPatch (e a)) → sticky (call e ask).
Proof.
  intros He st Hb. split; [exact Hb|].
  exists [e (ask (world st))]. split; [reflexivity|].
  constructor; [apply He | constructor].
Qed.

Lemma sticky_PatchKubevirtMachine (h : Helper) :
  sticky (PatchKubevirtMachine env h).
Proof.
  intros st Hb. split; [exact Hb|].
  exists [EvPatch (mem st) (Patch env (world st) h (mem st))].
  split; [reflexivity|]. constructor; [exact Hb | constructor].
Qed.

Lemma sticky_NewHelper : sticky (NewHelper env).
Proof.
  intros st Hb. unfold NewHelper.
  destruct (NewHelper_error env (world st) (mem st)); cbn;
    (split; [exact Hb|]); exists []; (split; [|constructor]);
    by rewrite app_nil_r.
Qed.

Lemma sticky_Client_Create (obj : corev1.Secret) :
  sticky (Client_Create env obj).
Proof.
  intros st Hb. split; [exact Hb|]. unfold Client_Create. cbn.
  eexists [_]. split; [reflexivity|]. by repeat constructor.
Qed.

Lemma sticky_Client_Update (obj : corev1.Secret) :
  sticky (Client_Update env obj).
Proof.
  intros st Hb. split; [exact Hb|]. unfold Client_Update. cbn.
  eexists [_]. split; [reflexivity|]. by repeat constructor.
Qed.

Lemma sticky_MarkTrue (t : clusterv1.ConditionType) : sticky (MarkTrue env t).
Proof.
  apply sticky_bind; [apply sticky_peek|]. intros now.
  by apply sticky_modify.
Qed.

Lemma sticky_MarkFalse (t : clusterv1.ConditionType) (reason : string)
  (severity : clusterv1.ConditionSeverity) (message : string) :
  sticky (MarkFalse env t reason severity message).
Proof.
  apply sticky_bind; [apply sticky_peek|]. intros now.
  by apply sticky_modify.
Qed.

Lemma AddFinalizer_Bootstrapped (f : string) (k : infrav1.KubevirtMachine) :
  infrav1.Spec_Bootstrapped (controllerutil.AddFinalizer k f)
  = infrav1.Spec_Bootstrapped k.
Proof.
  unfold controllerutil.AddFinalizer.
  by destruct (bool_decide (f ∈ metav1.Finalizers (infrav1.ObjectMeta k))).
Qed.

Create HintDb sticky.

#[local] Hint Resolve sticky_get_mem sticky_PatchKubevirtMachine
  sticky_NewHelper sticky_Client_Create sticky_Client_Update sticky_MarkTrue
  sticky_MarkFalse : sticky.

(** One rule of the logic: a return, a sequence, a case distinction of the
    code, a logged call or an update of the machine in memory. *)
Ltac sticky_step :=
  lazymatch goal with
  | |- sticky (ret _) => apply sticky_ret
  | |- sticky (bind _ _) => apply sticky_bind; [|intros ?]
  | |- sticky (call _ _) => apply sticky_call; intros ?; exact I
  | |- sticky (modify _) =>
      apply sticky_modify; intros ? ?;
      rewrite ?AddFinalizer_Bootstrapped; done
  | |- sticky (match ?x with _ => _ end) => destruct x
  | |- sticky _ => solve [auto with sticky]
  end.

Ltac sticky_auto := cbv zeta; repeat (sticky_step; cbv zeta).

Lemma sticky_Client_Get (key : ObjectKey) : sticky (Client_Get env key).
Proof. unfold Client_Get. sticky_auto. Qed.

Lemma sticky_mutate (f : MutateFn) (key : ObjectKey) (obj : corev1.Secret) :
  (∀ o, sticky (f o)) → sticky (mutate f key obj).
Proof. intros Hf. unfold mutate. sticky_auto. Qed.

Lemma sticky_CreateOrUpdate (obj : corev1.Secret) (f : MutateFn) :
  (∀ o, sticky (f o)) → sticky (CreateOrUpdate env obj f).
Proof.
  intros Hf. unfold CreateOrUpdate. cbv zeta.
  apply sticky_bind; [apply sticky_Client_Get|]. intros [existing|err].
  - apply sticky_bind; [by apply sticky_mutate|]. intros r. sticky_auto.
  - destruct (negb (IsNotFound (Some err))); [apply sticky_ret|].
    apply sticky_bind; [by apply sticky_mutate|]. intros r. sticky_auto.
Qed.

Lemma sticky_reconcileKubevirtBootstrapSecret (ctx : MachineContext)
  (sshKeys : string * string) :
  sticky (reconcileKubevirtBootstrapSecret env ctx sshKeys).
Proof.
  unfold reconcileKubevirtBootstrapSecret.
  destruct (clusterv1.Spec_Bootstrap_DataSecretName (ctx_Machine ctx))
    as [name|]; [|apply sticky_ret].
  cbv zeta. apply sticky_bind; [apply sticky_Client_Get|].
  intros [?|?]; [apply sticky_ret|].
  apply sticky_bind; [apply sticky_Client_Get|].
  intros [s|?]; [|apply sticky_ret].
  destruct (corev1.Data s !! "value"); [|apply sticky_ret].
  apply sticky_bind; [|intros r; sticky_auto].
  apply sticky_CreateOrUpdate. intros o.
  apply sticky_bind; [|intros r; sticky_auto].
  apply sticky_CreateOrUpdate. intros o'. sticky_auto.
Qed.

Lemma sticky_reconcileWorkloadClusterClient (ctx : MachineContext) :
  sticky (reconcileWorkloadClusterClient env ctx).
Proof.
  unfold reconcileWorkloadClusterClient, getKubeconfigForWorkloadCluster.
  cbv zeta.
  apply sticky_bind.
  - apply sticky_bind; [apply sticky_Client_Get|]. intros r. sticky_auto.
  - intros r. sticky_auto.
Qed.

#[local] Hint Resolve sticky_Client_Get sticky_reconcileKubevirtBootstrapSecret
  sticky_reconcileWorkloadClusterClient : sticky.

Lemma sticky_reconcileProviderID (ctx : MachineContext) :
  sticky (reconcileProviderID env ctx).
Proof.
  unfold reconcileProviderID, externalMachine_SetProviderID. sticky_auto.
Qed.

#[local] Hint Resolve sticky_reconcileProviderID : sticky.

Lemma sticky_reconcileAddresses (ctx : MachineContext) :
  sticky (reconcileAddresses env ctx).
Proof.
  unfold reconcileAddresses, externalMachine_Address. sticky_auto.
Qed.

#[local] Hint Resolve sticky_reconcileAddresses : sticky.

Lemma sticky_reconcileBootstrap (ctx : MachineContext)
  (e : VMCommandExecutor) :
  sticky (reconcileBootstrap env ctx e).
Proof.
  unfold reconcileBootstrap, externalMachine_IsBootstrapped. sticky_auto.
Qed.

#[local] Hint Resolve sticky_reconcileBootstrap : sticky.

Lemma sticky_reconcileVM (ctx : MachineContext) (sshKeys : string * string) :
  sticky (reconcileVM env ctx sshKeys).
Proof.
  unfold reconcileVM, kubevirthandler_NewMachine, externalMachine_Exists,
    externalMachine_Create, externalMachine_Address, externalMachine_IsBooted.
  sticky_auto.
Qed.

#[local] Hint Resolve sticky_reconcileVM : sticky.

Lemma sticky_reconcileNormal (ctx : MachineContext) :
  sticky (reconcileNormal env ctx).
Proof.
  unfold reconcileNormal, ssh_IsPersistedToSecret,
    ssh_FetchPersistedKeysFromSecret.
  sticky_auto.
Qed.

Lemma sticky_reconcileDelete (ctx : MachineContext) :
  sticky (reconcileDelete env ctx).
Proof. unfold reconcileDelete. sticky_auto. Qed.

#[local] Hint Resolve sticky_reconcileNormal sticky_reconcileDelete : sticky.

Lemma sticky_reconcileGuarded (ctx : MachineContext) :
  sticky (reconcileGuarded env ctx).
Proof. unfold reconcileGuarded. sticky_auto. Qed.

Lemma sticky_deferredPatch (h : Helper) (r : Result * option error) :
  sticky (deferredPatch env h r).
Proof. unfold deferredPatch. sticky_auto. Qed.

#[local] Hint Resolve sticky_reconcileGuarded sticky_deferredPatch : sticky.

Lemma bind_bind {A B C} (m : M A) (k1 : A → M B) (k2 : B → M C) (st : State) :
  bind (bind m k1) k2 st = bind m (λ a, bind (k1 a) k2) st.
Proof. unfold bind. by destruct (m st). Qed.

(** What [Reconcile] does once the KubevirtMachine is loaded keeps the
    flag. *)
Lemma Reconcile_loaded_sticky (req : Request) (k : infrav1.KubevirtMachine)
  (w : World) :
  Get_KubevirtMachine env w (NamespacedName req) = Ok k →
  infrav1.Spec_Bootstrapped k = true →
  infrav1.Spec_Bootstrapped (mem (snd (run (Reconcile env req) w))) = true
  ∧ ∃ evs,
      trace (world (snd (run (Reconcile env req) w)))
      = (trace w ++ evs)%list
      ∧ Forall bootstrappedPatch evs.
Proof.
  intros Hk Hb.
  remember (run (Reconcile env req) w) as R eqn:HR.
  unfold run, Reconcile, loadContext in HR. rewrite bind_bind in HR.
  unfold bind at 1, Client_Get_KubevirtMachine at 1 in HR.
  cbn [world mem] in HR. rewrite Hk in HR.
  match type of HR with
  | _ = ?m ?s =>
      assert (Hs : sticky m);
      [|destruct (Hs s Hb) as (Hb' & evs & Ht & Hf)]
  end.
  { unfold util_GetOwnerMachine, util_GetClusterFromMetadata,
      Client_Get_KubevirtCluster.
    sticky_auto. }
  rewrite <- HR in Hb', Ht.
  split; [exact Hb'|].
  exists (EvGet KubevirtMachineKind (NamespacedName req) :: evs).
  split; [|by constructor].
  rewrite Ht. cbn. by rewrite <- app_assoc.
Qed.

(** C6: once the KubevirtMachine that an invocation loads has
    [Spec.Bootstrapped = true], the machine in memory still has it when
    [Reconcile] returns, and so does every patch the invocation sends;
    [reconcileNormal] and [reconcileDelete] keep it from any state. *)
Theorem Bootstrapped_is_monotonic (req : Request) (w : World)
  (k : infrav1.KubevirtMachine) :
  Get_KubevirtMachine env w (NamespacedName req) = Ok k →
  infrav1.Spec_Bootstrapped k = true →
  let st' := snd (run (Reconcile env req) w) in
  infrav1.Spec_Bootstrapped (mem st') = true
  ∧ Forall bootstrappedPatch (emitted (start w) st')
  ∧ ∀ ctx st,
      infrav1.Spec_Bootstrapped (mem st) = true →
      infrav1.Spec_Bootstrapped (mem (snd (reconcileNormal env ctx st))) = true
      ∧ infrav1.Spec_Bootstrapped (mem (snd (reconcileDelete env ctx st)))
        = true.
Proof.
  intros Hk Hb. cbv zeta.
  destruct (Reconcile_loaded_sticky req k w Hk Hb) as (H1 & evs & Ht & Hf).
  split; [exact H1|]. split.
  - by rewrite (emitted_app (start w) _ evs Ht).
  - intros ctx st Hst. split.
    + by apply sticky_reconcileNormal.
    + by apply sticky_reconcileDelete.
Qed.

End Sticky.

(** A bootstrapped machine goes through the whole normal path: the VM is
    there, the provider id is set and the flag is kept. *)
Lemma Bootstrapped_is_monotonic_witness :
  infrav1.Spec_Bootstrapped
    (mem (snd (run (Reconcile (Sample.healthy Sample.bootstrapped)
                      Sample.request)
                 Sample.readyWorld)))
  = true
  ∧ infrav1.Spec_ProviderID
      (mem (snd (run (Reconcile (Sample.healthy Sample.bootstrapped)
                        Sample.request)
                   Sample.readyWorld)))
    = Some "kubevirt://node-0".
Proof.
  destruct (Bootstrapped_is_monotonic (Sample.healthy Sample.bootstrapped)
              Sample.request Sample.readyWorld Sample.bootstrapped
              eq_refl eq_refl) as (H & _).
  split; [exact H | vm_compute; reflexivity].
Defined.

(** ** Scenarios *)

(** The first invocation on a store that holds the generic secret only: the
    keys are persisted, the derived secret is created, and the run waits for
    bootstrap data without requeue. *)
Example first_invocation_creates_derived_secret :
  fst (run (Reconcile (Sample.healthy Sample.worker) Sample.request)
         Sample.genericOnly)
  = Returns (emptyResult, None)
  ∧ is_Some
      (secrets
         (world (snd (run (Reconcile (Sample.healthy Sample.worker)
                             Sample.request)
                        Sample.genericOnly)))
       !! ("default", "bootstrap-userdata")).
Proof. split; [reflexivity | vm_compute; eauto]. Qed.

(** Scenario C: the VM does not answer the boot probe; requeue after 20 s. *)
Example scenario_C_not_booted :
  fst (run (Reconcile Sample.scenarioC Sample.request) Sample.readyWorld)
  = Returns ({| Requeue := false; RequeueAfter := 20000000000 |}, None)
  ∧ conditions.Has
      (mem (snd (run (Reconcile Sample.scenarioC Sample.request)
                   Sample.readyWorld)))
      infrav1.VMProvisionedCondition
    = false.
Proof. split; reflexivity. Qed.

(** Scenario D, first call: booted but not bootstrapped; the condition is
    BootstrapExecSucceeded=False/BootstrapFailed and the run requeues after
    10 s. *)
Example scenario_D_not_bootstrapped :
  fst (run (Reconcile Sample.scenarioD Sample.request) Sample.readyWorld)
  = Returns ({| Requeue := false; RequeueAfter := 10000000000 |}, None)
  ∧ option_map clusterv1.Reason
      (conditions.Get
         (mem (snd (run (Reconcile Sample.scenarioD Sample.request)
                      Sample.readyWorld)))
         infrav1.BootstrapExecSucceededCondition)
    = Some infrav1.BootstrapFailedReason
  ∧ infrav1.Spec_Bootstrapped
      (mem (snd (run (Reconcile Sample.scenarioD Sample.request)
                   Sample.readyWorld)))
    = false.
Proof. repeat split; reflexivity. Qed.

(** Scenario E: no kubeconfig secret for the workload cluster; requeue after
    10 s and no provider id. *)
Example scenario_E_no_workload_client :
  fst (run (Reconcile (Sample.healthy Sample.worker) Sample.request)
         {| secrets := delete ("default", "kvcluster-kubeconfig")
                         Sample.bootstrapSecrets;
            trace := [] |})
  = Returns ({| Requeue := false; RequeueAfter := 10000000000 |}, None)
  ∧ infrav1.Spec_ProviderID
      (mem (snd (run (Reconcile (Sample.healthy Sample.worker) Sample.request)
                   {| secrets := delete ("default", "kvcluster-kubeconfig")
                                   Sample.bootstrapSecrets;
                      trace := [] |})))
    = None.
Proof. split; vm_compute; reflexivity. Qed.

(** Full convergence: everything is there; the provider id is set, the
    machine is ready and its addresses are published. *)
Example converges :
  fst (run (Reconcile (Sample.healthy Sample.worker) Sample.request)
         Sample.readyWorld)
  = Returns (emptyResult, None)
  ∧ infrav1.Spec_ProviderID
      (mem (snd (run (Reconcile (Sample.healthy Sample.worker) Sample.request)
                   Sample.readyWorld)))
    = Some "kubevirt://node-0"
  ∧ infrav1.Status_Ready
      (mem (snd (run (Reconcile (Sample.healthy Sample.worker) Sample.request)
                   Sample.readyWorld)))
    = true
  ∧ map clusterv1.Address
      (infrav1.Status_Addresses
         (mem (snd (run (Reconcile (Sample.healthy Sample.worker)
                           Sample.request)
                      Sample.readyWorld))))
    = ["node-0"; "10.0.0.7"; "10.0.0.7"].
Proof. repeat split; vm_compute; reflexivity. Qed.

(** The mapper on a KubevirtCluster and on another object. *)
Example mapper_requests :
  fst (run (KubevirtClusterToKubevirtMachines (Sample.healthy Sample.worker)
              (KubevirtClusterObject Sample.kubevirtCluster))
         Sample.emptyWorld)
  = Returns [{| NamespacedName := ("default", "machine-0") |}]
  ∧ fst (run (KubevirtClusterToKubevirtMachines
                (Sample.healthy Sample.worker)
                (SecretObject (Sample.secret "bootstrap" ∅)))
           Sample.emptyWorld)
    = Panics "Expected a KubevirtCluster but got a *v1.Secret".
Proof. split; reflexivity. Qed.

(** ** The entry sequence, whatever it meets *)




(** ** Waiting for the cluster infrastructure *)

(** X3: while the Cluster's infrastructure is not ready, an invocation that
    got past the finalizer gate only marks
    VMProvisioned=False/WaitingForClusterInfrastructure and ends with the
    deferred patch.  This holds whether or not the machine is marked for
    deletion: its finalizers stay as they are, so a deletion is not processed
    before the infrastructure is ready. *)
Theorem Reconcile_waits_for_infrastructure (env : Env) (req : Request)
  (w : World) (ctx : MachineContext) (h : Helper) (st1 : State) :
  run (loadContext env req) w = (inr (ctx, h), st1) →
  controllerutil.ContainsFinalizer (mem st1) infrav1.MachineFinalizer = true →
  clusterv1.Status_InfrastructureReady (ctx_Cluster ctx) = false →
  let waiting :=
    conditions.MarkFalse (Now env (world st1)) (mem st1)
      infrav1.VMProvisionedCondition
      infrav1.WaitingForClusterInfrastructureReason
      clusterv1.ConditionSeverityInfo "" in
  let patched := Patch env (world st1) h waiting in
  let st3 := snd (run (Reconcile env req) w) in
  fst (run (Reconcile env req) w) = Returns (emptyResult, patched)
  ∧ mem st3 = waiting
  ∧ hasCondition waiting infrav1.VMProvisionedCondition
      clusterv1.ConditionFalse infrav1.WaitingForClusterInfrastructureReason
  ∧ infrav1.ObjectMeta waiting = infrav1.ObjectMeta (mem st1)
  ∧ controllerutil.ContainsFinalizer (mem st3) infrav1.MachineFinalizer = true
  ∧ secrets (world st3) = secrets w
  ∧ ∃ key,
      emitted (start w) st3
      = [EvGet KubevirtMachineKind (NamespacedName req); EvGetOwnerMachine;
         EvGetClusterFromMetadata; EvGet KubevirtClusterKind key;
         EvPatch waiting patched].
Proof.
  intros Hl Hf Hi. cbv zeta.
  pose proof (Reconcile_continues env req w ctx h st1 Hl) as Hr.
  assert (Hg : reconcileGuarded env ctx st1
               = ((emptyResult, None),
                  {| mem := conditions.MarkFalse (Now env (world st1)) (mem st1)
                              infrav1.VMProvisionedCondition
                              infrav1.WaitingForClusterInfrastructureReason
                              clusterv1.ConditionSeverityInfo "";
                     world := world st1 |})).
  { unfold reconcileGuarded, bind, get_mem. rewrite Hf, Hi. reflexivity. }
  rewrite Hg in Hr.
  unfold deferredPatch, bind, PatchKubevirtMachine, get_mem, call in Hr.
  cbn in Hr.
  destruct (loadContext_continues env req w ctx h st1 Hl)
    as (_ & _ & Hs1 & key & Hk).
  destruct (Patch env (world st1) h
              (conditions.MarkFalse (Now env (world st1)) (mem st1)
                 infrav1.VMProvisionedCondition
                 infrav1.WaitingForClusterInfrastructureReason
                 clusterv1.ConditionSeverityInfo ""))
    as [e|] eqn:Hp; cbn in Hr; rewrite Hr; cbn.
  all: split; [done|]; split; [done|].
  all: split; [apply MarkFalse_hasCondition|]; split; [done|].
  all: split; [exact Hf|]; split; [exact Hs1|].
  all: exists key; apply emitted_app; cbn; rewrite Hk, <- app_assoc;
    reflexivity.
Qed.

(** A machine marked for deletion while the infrastructure is not ready keeps
    its finalizer. *)
Lemma Reconcile_waits_for_infrastructure_witness :
  fst (run (Reconcile (Scenario.infrastructurePending
                         (Sample.healthy Sample.deleted))
              Sample.request)
         Sample.emptyWorld)
  = Returns (emptyResult, None)
  ∧ finalizers
      (mem (snd (run (Reconcile (Scenario.infrastructurePending
                                   (Sample.healthy Sample.deleted))
                        Sample.request)
                   Sample.emptyWorld)))
    = [infrav1.MachineFinalizer].
Proof.
  destruct (Reconcile_waits_for_infrastructure
              (Scenario.infrastructurePending (Sample.healthy Sample.deleted))
              Sample.request Sample.emptyWorld
              {| ctx_Cluster := Sample.cluster false;
                 ctx_KubevirtCluster := Sample.kubevirtCluster;
                 ctx_Machine := Sample.machine (Some "bootstrap") |}
              {| before := Sample.deleted |} (Sample.loaded Sample.deleted)
              eq_refl eq_refl eq_refl) as (H1 & H2 & _).
  split; [exact H1 | rewrite H2; reflexivity].
Defined.

(** ** Deleting a machine *)

(** X4: for a machine marked for deletion, with its finalizer and a ready
    infrastructure, the invocation calls neither the VM handle nor the secrets:
    after the entry reads it sends the patch that announces the deletion and
    the deferred patch, and nothing else.  The finalizer is gone from the
    object of the deferred patch exactly when the first patch succeeded, and
    the error of a failed first patch is what is returned. *)
Theorem Reconcile_deleted_machine (env : Env) (req : Request) (w : World)
  (ctx : MachineContext) (h : Helper) (st1 : State) :
  run (loadContext env req) w = (inr (ctx, h), st1) →
  controllerutil.ContainsFinalizer (mem st1) infrav1.MachineFinalizer = true →
  clusterv1.Status_InfrastructureReady (ctx_Cluster ctx) = true →
  metav1.IsZero (metav1.DeletionTimestamp (infrav1.ObjectMeta (mem st1)))
  = false →
  NewHelper_error env (world st1) (mem st1) = None →
  let marked :=
    conditions.MarkFalse (Now env (world st1)) (mem st1)
      infrav1.VMProvisionedCondition clusterv1.DeletingReason
      clusterv1.ConditionSeverityInfo "" in
  let announced := Patch env (world st1) {| before := mem st1 |} marked in
  let final :=
    match announced with
    | Some _ => marked
    | None => controllerutil.RemoveFinalizer marked infrav1.MachineFinalizer
    end in
  let st3 := snd (run (Reconcile env req) w) in
  mem st3 = final
  ∧ secrets (world st3) = secrets w
  ∧ (∃ key deferred,
       emitted (start w) st3
       = [EvGet KubevirtMachineKind (NamespacedName req); EvGetOwnerMachine;
          EvGetClusterFromMetadata; EvGet KubevirtClusterKind key;
          EvPatch marked announced; EvPatch final deferred]
       ∧ fst (run (Reconcile env req) w)
         = Returns (emptyResult,
                    match announced with
                    | Some err =>
                        Some (errors_Wrap err "failed to patch KubevirtMachine")
                    | None => deferred
                    end))
  ∧ Forall (λ e, isVMCall e = false ∧ isSecretCall e = false)
      (emitted (start w) st3)
  ∧ (controllerutil.ContainsFinalizer final infrav1.MachineFinalizer = false
     ↔ announced = None).
Proof.
  intros Hl Hf Hi Hd Hh. cbv zeta.
  pose proof (Reconcile_continues env req w ctx h st1 Hl) as Hr.
  destruct (loadContext_continues env req w ctx h st1 Hl)
    as (_ & _ & Hs1 & key & Hk).
  unfold reconcileGuarded, bind, get_mem in Hr. rewrite Hf, Hi in Hr.
  cbn in Hr. rewrite Hd in Hr. cbn in Hr.
  unfold reconcileDelete, bind, NewHelper in Hr. rewrite Hh in Hr.
  unfold MarkFalse, bind, peek, modify, PatchKubevirtMachine, get_mem, call,
    deferredPatch, bind, PatchKubevirtMachine, get_mem, call in Hr.
  cbn in Hr.
  destruct (Patch env (world st1) {| before := mem st1 |}
              (conditions.MarkFalse (Now env (world st1)) (mem st1)
                 infrav1.VMProvisionedCondition clusterv1.DeletingReason
                 clusterv1.ConditionSeverityInfo ""))
    as [e|] eqn:Hp; cbn in Hr.
  all: match type of Hr with
       | context [match Patch ?en ?w' ?h' ?k with _ => _ end] =>
           destruct (Patch en w' h' k) as [e'|] eqn:Hp'
       end; cbn in Hr; rewrite Hr; cbn.
  all: split; [done|]; split; [exact Hs1|].
  all: (split;
        [eexists key, _; split;
         [apply emitted_app; cbn; rewrite Hk, <- !app_assoc; cbn;
          rewrite ?Hp'; reflexivity
         |rewrite ?Hp'; reflexivity]|]).
  all: (split;
        [erewrite emitted_app
           by (cbn; rewrite Hk, <- !app_assoc; cbn; reflexivity);
         by repeat constructor|]).
  all: try (split; [intros _; reflexivity | intros _; apply RemoveFinalizer_contains]).
  all: split; [|discriminate]; intros Hc; exfalso;
    unfold controllerutil.ContainsFinalizer in *; cbn in *; congruence.
Qed.

(** A machine marked for deletion in a healthy environment: the finalizer is
    removed and both patches succeed. *)
Lemma Reconcile_deleted_machine_witness :
  finalizers
    (mem (snd (run (Reconcile (Sample.healthy Sample.deleted) Sample.request)
                 Sample.emptyWorld)))
  = []
  ∧ Forall (λ e, isVMCall e = false ∧ isSecretCall e = false)
      (emitted (start Sample.emptyWorld)
         (snd (run (Reconcile (Sample.healthy Sample.deleted) Sample.request)
                 Sample.emptyWorld))).
Proof.
  destruct (Reconcile_deleted_machine (Sample.healthy Sample.deleted)
              Sample.request Sample.emptyWorld (Sample.ctx (Some "bootstrap"))
              {| before := Sample.deleted |} (Sample.loaded Sample.deleted)
              eq_refl eq_refl eq_refl eq_refl eq_refl)
    as (H1 & _ & _ & H2 & _).
  split; [rewrite H1; reflexivity | exact H2].
Defined.

(** ** A logic of invariants, calls and returned values *)

Section Obeys.

Variable env : Env.
Variable I : infrav1.KubevirtMachine → Prop.
Variable P : Event → Prop.

Lemma obeys_ret {A} (Q : A → Prop) (a : A) : Q a → obeys I P Q (ret a).
Proof.
  intros Hq st Hi. split; [exact Hq|]. split; [exact Hi|].
  exists []. split; [|constructor]. cbn. by rewrite app_nil_r.
Qed.

Lemma obeys_bind {A B} (Q : A → Prop) (R : B → Prop) (m : M A)
  (k : A → M B) :
  obeys I P Q m → (∀ a, Q a → obeys I P R (k a)) → obeys I P R (bind m k).
Proof.
  intros Hm Hk st Hi. unfold bind.
  specialize (Hm st Hi). destruct (m st) as [a st']. cbn in Hm.
  destruct Hm as (Hq & Hi' & evs & Ht & Hf).
  destruct (Hk a Hq st' Hi') as (Hr & Hi'' & evs' & Ht' & Hf').
  split; [exact Hr|]. split; [exact Hi''|]. exists (evs ++ evs')%list.
  split; [by rewrite Ht', Ht, app_assoc | by apply Forall_app].
Qed.

Lemma obeys_weaken {A} (Q Q' : A → Prop) (m : M A) :
  (∀ a, Q a → Q' a) → obeys I P Q m → obeys I P Q' m.
Proof.
  intros Hq Hm st Hi. destruct (Hm st Hi) as (H1 & H2 & H3). auto.
Qed.

Lemma obeys_get_mem : obeys I P I get_mem.
Proof.
  intros st Hi. split; [exact Hi|]. split; [exact Hi|].
  exists []. split; [|constructor]. cbn. by rewrite app_nil_r.
Qed.

Lemma obeys_peek {A} (ask : World → A) : obeys I P (λ _, True) (peek ask).
Proof.
  intros st Hi. split; [exact Logic.I|]. split; [exact Hi|].
  exists []. split; [|constructor]. cbn. by rewrite app_nil_r.
Qed.

Lemma obeys_modify (f : infrav1.KubevirtMachine → infrav1.KubevirtMachine) :
  (∀ k, I k → I (f k)) → obeys I P (λ _, True) (modify f).
Proof.
  intros Hf st Hi. split; [exact Logic.I|]. split; [by apply Hf|].
  exists []. split; [|constructor]. cbn. by rewrite app_nil_r.
Qed.

Lemma obeys_call {A} (e : A → Event) (ask : World → A) :
  (∀ a, P (e a)) → obeys I P (λ a, ∃ w, a = ask w) (call e ask).
Proof.
  intros He st Hi. split; [by eexists|]. split; [exact Hi|].
  exists [e (ask (world st))]. split; [reflexivity|].
  constructor; [apply He | constructor].
Qed.

Lemma obeys_PatchKubevirtMachine (h : Helper) :
  (∀ k r, I k → P (EvPatch k r)) →
  obeys I P (λ _, True) (PatchKubevirtMachine env h).
Proof.
  intros Hp st Hi. split; [exact Logic.I|]. split; [exact Hi|].
  exists [EvPatch (mem st) (Patch env (world st) h (mem st))].
  split; [reflexivity|]. constructor; [by apply Hp | constructor].
Qed.

Lemma obeys_NewHelper : obeys I P (λ _, True) (NewHelper env).
Proof.
  intros st Hi. unfold NewHelper.
  destruct (NewHelper_error env (world st) (mem st)); cbn;
    (split; [exact Logic.I|]); (split; [exact Hi|]); exists [];
    (split; [|constructor]); by rewrite app_nil_r.
Qed.

Lemma obeys_Client_Create (obj : corev1.Secret) :
  (∀ r, P (EvCreate obj r)) → obeys I P (λ _, True) (Client_Create env obj).
Proof.
  intros Hp st Hi. split; [exact Logic.I|]. split; [exact Hi|].
  unfold Client_Create. cbn. eexists [_]. split; [reflexivity|].
  constructor; [apply Hp | constructor].
Qed.

Lemma obeys_Client_Update (obj : corev1.Secret) :
  (∀ r, P (EvUpdate obj r)) → obeys I P (λ _, True) (Client_Update env obj).
Proof.
  intros Hp st Hi. split; [exact Logic.I|]. split; [exact Hi|].
  unfold Client_Update. cbn. eexists [_]. split; [reflexivity|].
  constructor; [apply Hp | constructor].
Qed.

(** What a run that obeys gives for one state. *)
Lemma obeys_run {A} (Q : A → Prop) (m : M A) (st : State) :
  obeys I P Q m → I (mem st) →
  Q (fst (m st)) ∧ I (mem (snd (m st))) ∧ Forall P (emitted st (snd (m st))).
Proof.
  intros Hm Hi. destruct (Hm st Hi) as (Hq & Hi' & evs & Ht & Hf).
  split; [exact Hq|]. split; [exact Hi'|].
  by rewrite (emitted_app st _ evs Ht).
Qed.

End Obeys.

(** Close a side condition of a rule: a fact about one call, one update of
    the machine or one returned value. *)
Ltac obeys_returned := fail.

Ltac obeys_side :=
  intros; cbv beta zeta in *; cbn in *;
  first [ done | tauto | (repeat split; done) | solve [obeys_returned]
        | intuition (eauto; congruence) ].

(** One rule of the logic, chosen by the shape of the code.  Where the
    predicate of the returned value is still open, a call fixes it to what the
    collaborator may answer, a read of the machine to the invariant, and
    anything else leaves it trivial. *)
Ltac obeys_step :=
  cbv beta zeta;
  lazymatch goal with
  | |- @obeys ?A _ _ ?Q ?m =>
      tryif is_evar Q then
        (lazymatch m with
         | call _ _ => apply obeys_call; obeys_side
         | get_mem => apply obeys_get_mem
         | _ => unify Q (λ _ : A, True)
         end)
      else
        (lazymatch m with
        | ret _ => apply obeys_ret; obeys_side
        | bind _ _ => eapply obeys_bind; [|intros ? ?]
        | get_mem => eapply obeys_weaken; [|apply obeys_get_mem]; obeys_side
        | peek _ => eapply obeys_weaken; [|apply obeys_peek]; obeys_side
        | modify _ => eapply obeys_weaken; [|apply obeys_modify]; obeys_side
        | call _ _ => eapply obeys_weaken; [|apply obeys_call]; obeys_side
        | PatchKubevirtMachine _ _ =>
            eapply obeys_weaken; [|apply obeys_PatchKubevirtMachine];
            obeys_side
        | NewHelper _ =>
            eapply obeys_weaken; [|apply obeys_NewHelper]; obeys_side
        | Client_Create _ _ =>
            eapply obeys_weaken; [|apply obeys_Client_Create]; obeys_side
        | Client_Update _ _ =>
            eapply obeys_weaken; [|apply obeys_Client_Update]; obeys_side
        | match ?x with _ => _ end => destruct x eqn:?
        end)
  end.

Ltac obeys_auto := repeat obeys_step.

(** Close a branch that the hypotheses exclude. *)
Ltac obeys_excluded :=
  try lazymatch goal with
      | |- @obeys ?A _ _ ?Q _ => is_evar Q; unify Q (λ _ : A, True)
      end;
  exfalso; cbv beta in *.

(** The code of the normal path, down to the calls. *)
Ltac unfold_normal :=
  unfold reconcileNormal, reconcileVM, reconcileBootstrap, reconcileAddresses,
    reconcileProviderID, reconcileWorkloadClusterClient,
    getKubeconfigForWorkloadCluster, reconcileKubevirtBootstrapSecret,
    CreateOrUpdate, mutate, MarkTrue, MarkFalse, Client_Get,
    ssh_IsPersistedToSecret, ssh_FetchPersistedKeysFromSecret,
    kubevirthandler_NewMachine, externalMachine_Exists, externalMachine_Create,
    externalMachine_Address, externalMachine_IsBooted,
    externalMachine_IsBootstrapped, externalMachine_SetProviderID.

(** ** The normal path leaves the metadata alone *)

Lemma reconcileNormal_obeys_meta (env : Env) (ctx : MachineContext)
  (meta : metav1.ObjectMeta) :
  obeys (λ k, infrav1.ObjectMeta k = meta) (patchWithMeta meta) (λ _, True)
    (reconcileNormal env ctx).
Proof. unfold_normal. obeys_auto. Qed.

Lemma reconcileNormal_keeps_metadata_aux (env : Env) (ctx : MachineContext)
  (st : State) :
  infrav1.ObjectMeta (mem (snd (reconcileNormal env ctx st)))
  = infrav1.ObjectMeta (mem st)
  ∧ Forall (patchWithMeta (infrav1.ObjectMeta (mem st)))
      (emitted st (snd (reconcileNormal env ctx st))).
Proof.
  destruct (obeys_run _ _ _ _ st
              (reconcileNormal_obeys_meta env ctx (infrav1.ObjectMeta (mem st)))
              eq_refl) as (_ & Hm & Hp).
  by split.
Qed.

(** X5: the normal path never touches the metadata of the machine: name,
    labels, finalizers, deletion timestamp and owner references are at return
    what they were at entry, and every patch it sends carries them. *)
Theorem reconcileNormal_keeps_metadata (env : Env) (ctx : MachineContext)
  (st : State) :
  let st' := snd (reconcileNormal env ctx st) in
  infrav1.ObjectMeta (mem st') = infrav1.ObjectMeta (mem st)
  ∧ finalizers (mem st') = finalizers (mem st)
  ∧ Forall (patchWithMeta (infrav1.ObjectMeta (mem st))) (emitted st st').
Proof.
  cbv zeta.
  destruct (reconcileNormal_keeps_metadata_aux env ctx st) as [Hm Hp].
  split; [exact Hm|]. split; [|exact Hp].
  unfold finalizers. by rewrite Hm.
Qed.

(** ** The finalizer of a machine that is not being deleted *)

(** The guarded part only adds calls to the trace. *)
Lemma reconcileGuarded_extends (env : Env) (ctx : MachineContext) (st : State) :
  ∃ evs,
    trace (world (snd (reconcileGuarded env ctx st)))
    = (trace (world st) ++ evs)%list.
Proof.
  assert (H : obeys (λ _, True) (λ _, True) (λ _, True)
                (reconcileGuarded env ctx)).
  { unfold reconcileGuarded, reconcileDelete. unfold_normal. obeys_auto. }
  destruct (H st Logic.I) as (_ & _ & evs & Ht & _). by exists evs.
Qed.

Lemma reconcileGuarded_live_finalizer (env : Env) (ctx : MachineContext)
  (st : State) :
  metav1.IsZero (metav1.DeletionTimestamp (infrav1.ObjectMeta (mem st)))
  = true →
  controllerutil.ContainsFinalizer (mem (snd (reconcileGuarded env ctx st)))
    infrav1.MachineFinalizer
  = true.
Proof.
  intros Hd. unfold reconcileGuarded, bind, get_mem.
  destruct (controllerutil.ContainsFinalizer (mem st) infrav1.MachineFinalizer)
    eqn:Hf; cbn [negb].
  - destruct (clusterv1.Status_InfrastructureReady (ctx_Cluster ctx));
      cbn [negb].
    + rewrite Hd. cbn [negb].
      destruct (reconcileNormal_keeps_metadata_aux env ctx st) as [Hm _].
      unfold controllerutil.ContainsFinalizer in *. by rewrite Hm.
    + exact Hf.
  - apply AddFinalizer_contains.
Qed.

(** Past the entry sequence the invocation ends with the patch of the machine
    as the guarded part left it. *)
Lemma Reconcile_ends_with_patch (env : Env) (req : Request) (w : World)
  (ctx : MachineContext) (h : Helper) (st1 : State) :
  run (loadContext env req) w = (inr (ctx, h), st1) →
  let r := fst (reconcileGuarded env ctx st1) in
  let st2 := snd (reconcileGuarded env ctx st1) in
  let st3 := snd (run (Reconcile env req) w) in
  mem st3 = mem st2
  ∧ secrets (world st3) = secrets (world st2)
  ∧ ∃ deferred,
      trace (world st3)
      = (trace (world st2) ++ [EvPatch (mem st2) deferred])%list
      ∧ fst (run (Reconcile env req) w)
        = Returns (fst r,
                   match snd r with
                   | Some rerr => Some rerr
                   | None => deferred
                   end).
Proof.
  intros Hl. cbv zeta. rewrite (Reconcile_continues env req w ctx h st1 Hl).
  destruct (reconcileGuarded env ctx st1) as [[res rerr] st2]. cbn.
  unfold deferredPatch, bind, PatchKubevirtMachine, get_mem, call. cbn.
  destruct (Patch env (world st2) h (mem st2)) as [e|] eqn:Hp;
    destruct rerr as [rerr|]; cbn; repeat split; eexists; by split.
Qed.

(** X6: an invocation that gets past the entry sequence for a machine that is
    not marked for deletion never removes the finalizer: whatever branch it
    takes, at return the machine in memory carries the finalizer, and so does
    the object of the deferred patch, the last call of the invocation. *)
Theorem Reconcile_keeps_finalizer (env : Env) (req : Request) (w : World)
  (ctx : MachineContext) (h : Helper) (st1 : State) :
  run (loadContext env req) w = (inr (ctx, h), st1) →
  metav1.IsZero (metav1.DeletionTimestamp (infrav1.ObjectMeta (mem st1)))
  = true →
  let st3 := snd (run (Reconcile env req) w) in
  controllerutil.ContainsFinalizer (mem st3) infrav1.MachineFinalizer = true
  ∧ ∃ deferred,
      last (emitted (start w) st3) = Some (EvPatch (mem st3) deferred).
Proof.
  intros Hl Hd. cbv zeta.
  destruct (Reconcile_ends_with_patch env req w ctx h st1 Hl)
    as (Hm & _ & deferred & Ht & _).
  split.
  - rewrite Hm. by apply reconcileGuarded_live_finalizer.
  - exists deferred. unfold emitted. rewrite Ht, Hm.
    destruct (loadContext_continues env req w ctx h st1 Hl)
      as (_ & _ & _ & key & Hk).
    assert (Hext : ∃ evs,
              trace (world (snd (reconcileGuarded env ctx st1)))
              = (trace w ++ evs)%list).
    { destruct (reconcileGuarded_extends env ctx st1) as [evs Hevs].
      exists ([EvGet KubevirtMachineKind (NamespacedName req);
               EvGetOwnerMachine; EvGetClusterFromMetadata;
               EvGet KubevirtClusterKind key] ++ evs)%list.
      by rewrite Hevs, Hk, <- app_assoc. }
    destruct Hext as [evs ->]. cbn.
    rewrite <- app_assoc, drop_app_length. apply last_snoc.
Qed.

(** A machine being provisioned: after the whole normal path the finalizer is
    still there. *)
Lemma Reconcile_keeps_finalizer_witness :
  controllerutil.ContainsFinalizer
    (mem (snd (run (Reconcile (Sample.healthy Sample.worker) Sample.request)
                 Sample.readyWorld)))
    infrav1.MachineFinalizer
  = true.
Proof.
  destruct (Reconcile_keeps_finalizer (Sample.healthy Sample.worker)
              Sample.request Sample.readyWorld (Sample.ctx (Some "bootstrap"))
              {| before := Sample.worker |}
              {| mem := Sample.worker;
                 world := {| secrets := Sample.bootstrapSecrets;
                             trace := Sample.entryReads |} |}
              eq_refl eq_refl) as (H & _).
  exact H.
Defined.

(** ** What a reconciliation returns *)

Lemma disciplined_wait : disciplined (emptyResult, None).
Proof. split; [done|]. split; [by repeat constructor | done]. Qed.

Lemma disciplined_error (err : error) : disciplined (emptyResult, Some err).
Proof. split; [done|]. split; [by repeat constructor | done]. Qed.

Lemma disciplined_requeue (d : Duration) :
  d ∈ requeueDelays → disciplined (requeueAfter d, None).
Proof. intros Hd. split; [done|]. split; [exact Hd | done]. Qed.

Ltac obeys_returned ::=
  first [ apply disciplined_wait | apply disciplined_error
        | apply disciplined_requeue; by repeat constructor ].

Lemma reconcileGuarded_disciplined (env : Env) (ctx : MachineContext) :
  obeys (λ _, True) (λ _, True) disciplined (reconcileGuarded env ctx).
Proof. unfold reconcileGuarded, reconcileDelete. unfold_normal. obeys_auto. Qed.

Lemma loadContext_stops (env : Env) (req : Request) (w : World)
  (r : Result * option error) (st : State) :
  run (loadContext env req) w = (inl (Returns r), st) → fst r = emptyResult.
Proof.
  unfold run, loadContext, bind, Client_Get_KubevirtMachine, get_mem,
    util_GetOwnerMachine, util_GetClusterFromMetadata,
    Client_Get_KubevirtCluster, NewHelper, call, ret.
  cbn.
  destruct (Get_KubevirtMachine env w (NamespacedName req)) as [k|e]; cbn.
  2:{ destruct e; by intros [= <- _]. }
  destruct (GetOwnerMachine env _ _) as [[m|] [e|]]; cbn;
    try by intros [= <- _].
  destruct (GetClusterFromMetadata env _ _) as [[c|] [e|]]; cbn;
    try by intros [= <- _].
  destruct (clusterv1.Spec_InfrastructureRef c) as [n|]; cbn;
    try discriminate.
  destruct (Get_KubevirtCluster env _ _) as [kc|e]; cbn;
    try by intros [= <- _].
  destruct (NewHelper_error env _ _) as [e|]; cbn; try discriminate.
  by intros [= <- _].
Qed.

(** X7: whatever the collaborators answer, the normal path and the delete
    path never set the [Requeue] flag, ask to be called again only after 5, 10
    or 20 seconds, and return no delay beside an error; [Reconcile] as a whole
    never sets the flag either and returns one of these delays or none. *)
Theorem requeue_discipline (env : Env) :
  (∀ ctx st, disciplined (fst (reconcileNormal env ctx st)))
  ∧ (∀ ctx st, disciplined (fst (reconcileDelete env ctx st)))
  ∧ ∀ req w,
      match fst (run (Reconcile env req) w) with
      | Returns r =>
          Requeue (fst r) = false ∧ RequeueAfter (fst r) ∈ requeueDelays
      | Panics _ => True
      end.
Proof.
  split; [|split].
  - intros ctx st.
    assert (H : obeys (λ _, True) (λ _, True) disciplined
                  (reconcileNormal env ctx)).
    { unfold_normal. obeys_auto. }
    by destruct (H st Logic.I).
  - intros ctx st.
    assert (H : obeys (λ _, True) (λ _, True) disciplined
                  (reconcileDelete env ctx)).
    { unfold reconcileDelete. unfold_normal. obeys_auto. }
    by destruct (H st Logic.I).
  - intros req w.
    destruct (run (loadContext env req) w) as [[out|[ctx h]] st1] eqn:Hl.
    + assert (Hr : run (Reconcile env req) w = (out, st1)).
      { unfold run, Reconcile, bind in *. by rewrite Hl. }
      rewrite Hr. cbn. destruct out as [r|msg]; [|done].
      rewrite (loadContext_stops env req w r st1 Hl).
      split; [done | by repeat constructor].
    + destruct (Reconcile_ends_with_patch env req w ctx h st1 Hl)
        as (_ & _ & deferred & _ & ->).
      destruct (reconcileGuarded_disciplined env ctx st1 Logic.I)
        as ((H1 & H2 & _) & _).
      by split.
Qed.

(** ** No second VM *)

(** X8: when the VM handle reports that the VM exists, the normal path never
    calls [Create], whatever else the collaborators answer. *)
Theorem reconcileNormal_no_second_VM (env : Env) (ctx : MachineContext)
  (st : State) :
  (∀ w, Exists env w = true) →
  Forall (λ e, isVMCreate e = false)
    (emitted st (snd (reconcileNormal env ctx st))).
Proof.
  intros He.
  assert (H : obeys (λ _, True) (λ e, isVMCreate e = false) (λ _, True)
                (reconcileNormal env ctx)).
  { unfold_normal. obeys_auto.
    exfalso. cbv beta in *.
    match goal with
    | H : ∃ w, _ = Exists _ w |- _ => destruct H as [w' ->]
    end.
    rewrite He in *. discriminate. }
  by destruct (obeys_run _ _ _ _ st H Logic.I) as (_ & _ & Hp).
Qed.

(** The VM of a machine being provisioned is there already: it is booted and
    bootstrapped, never created again. *)
Lemma reconcileNormal_no_second_VM_witness :
  Forall (λ e, isVMCreate e = false)
    (emitted (Sample.inMemory Sample.worker Sample.readyWorld)
       (snd (reconcileNormal (Scenario.existingVM (Sample.healthy Sample.worker))
               (Sample.ctx (Some "bootstrap"))
               (Sample.inMemory Sample.worker Sample.readyWorld)))).
Proof.
  exact (reconcileNormal_no_second_VM
           (Scenario.existingVM (Sample.healthy Sample.worker))
           (Sample.ctx (Some "bootstrap"))
           (Sample.inMemory Sample.worker Sample.readyWorld)
           (λ _, eq_refl)).
Defined.

(** ** The provider id, once set *)

Lemma AddFinalizer_ProviderID (f : string) (k : infrav1.KubevirtMachine) :
  infrav1.Spec_ProviderID (controllerutil.AddFinalizer k f)
  = infrav1.Spec_ProviderID k.
Proof.
  unfold controllerutil.AddFinalizer.
  by destruct (bool_decide (f ∈ metav1.Finalizers (infrav1.ObjectMeta k))).
Qed.

Lemma reconcileGuarded_obeys_providerID (env : Env) (ctx : MachineContext)
  (p : string) :
  obeys (λ k, infrav1.Spec_ProviderID k = Some p)
    (patchWithProviderID (Some p)) (λ _, True) (reconcileGuarded env ctx).
Proof.
  unfold reconcileGuarded, reconcileDelete, MarkFalse. obeys_auto.
  - apply obeys_modify. intros k Hk. by rewrite AddFinalizer_ProviderID.
  - intros st Hi. rewrite (reconcileNormal_provisioned env ctx st p Hi). cbn.
    split; [done|]. split; [exact Hi|]. exists []. split; [|constructor].
    by rewrite app_nil_r.
Qed.

(** X9: a provider id that is set on the machine an invocation loads is never
    changed or cleared by that invocation: whatever branch it takes and
    whatever the collaborators answer, the machine in memory carries the same
    provider id at return, and so does every patch sent after the entry
    sequence. *)
Theorem Reconcile_keeps_providerID (env : Env) (req : Request) (w : World)
  (ctx : MachineContext) (h : Helper) (st1 : State) (p : string) :
  run (loadContext env req) w = (inr (ctx, h), st1) →
  infrav1.Spec_ProviderID (mem st1) = Some p →
  let st3 := snd (run (Reconcile env req) w) in
  infrav1.Spec_ProviderID (mem st3) = Some p
  ∧ Forall (patchWithProviderID (Some p)) (emitted st1 st3).
Proof.
  intros Hl Hp. cbv zeta.
  destruct (Reconcile_ends_with_patch env req w ctx h st1 Hl)
    as (Hm & _ & deferred & Ht & _).
  destruct (reconcileGuarded_obeys_providerID env ctx p st1 Hp)
    as (_ & Hp2 & evs & Hevs & Hf).
  split; [by rewrite Hm|].
  rewrite (emitted_app st1 _ (evs ++ [EvPatch
                                        (mem (snd (reconcileGuarded env ctx st1)))
                                        deferred])%list).
  - apply Forall_app. split; [exact Hf|]. by repeat constructor.
  - by rewrite Ht, Hevs, app_assoc.
Qed.

(** A provisioned machine marked for deletion: the delete path runs and the
    provider id stays. *)
Lemma Reconcile_keeps_providerID_witness :
  infrav1.Spec_ProviderID
    (mem (snd (run (Reconcile (Sample.healthy Scenario.retired) Sample.request)
                 Sample.emptyWorld)))
  = Some "kubevirt://node-0"
  ∧ finalizers
      (mem (snd (run (Reconcile (Sample.healthy Scenario.retired)
                        Sample.request)
                   Sample.emptyWorld)))
    = [].
Proof.
  destruct (Reconcile_keeps_providerID (Sample.healthy Scenario.retired)
              Sample.request Sample.emptyWorld (Sample.ctx (Some "bootstrap"))
              {| before := Scenario.retired |} (Sample.loaded Scenario.retired)
              "kubevirt://node-0" eq_refl eq_refl) as (H & _).
  split; [exact H | reflexivity].
Defined.

(** ** The bootstrap probe *)

(** X10: a machine whose [Spec.Bootstrapped] is set is never probed for
    bootstrap again: the normal path makes no [IsBootstrapped] call, whatever
    the collaborators answer. *)
Theorem reconcileNormal_never_probes_again (env : Env) (ctx : MachineContext)
  (st : State) :
  infrav1.Spec_Bootstrapped (mem st) = true →
  Forall (λ e, e ≠ EvIsBootstrapped)
    (emitted st (snd (reconcileNormal env ctx st))).
Proof.
  intros Hb.
  assert (H : obeys (λ k, infrav1.Spec_Bootstrapped k = true)
                (λ e, e ≠ EvIsBootstrapped) (λ _, True)
                (reconcileNormal env ctx)).
  { unfold_normal. obeys_auto.
    all: obeys_excluded;
      repeat match goal with
             | H : infrav1.Spec_Bootstrapped ?k = true,
               H' : negb (infrav1.Spec_Bootstrapped ?k) = true |- _ =>
                 rewrite H in H'; discriminate
             end. }
  by destruct (obeys_run _ _ _ _ st H Hb) as (_ & _ & Hp).
Qed.

(** A bootstrapped machine goes through the rest of the normal path without
    the probe. *)
Lemma reconcileNormal_never_probes_again_witness :
  Forall (λ e, e ≠ EvIsBootstrapped)
    (emitted (Sample.inMemory Sample.bootstrapped Sample.readyWorld)
       (snd (reconcileNormal (Sample.healthy Sample.bootstrapped)
               (Sample.ctx (Some "bootstrap"))
               (Sample.inMemory Sample.bootstrapped Sample.readyWorld)))).
Proof.
  exact (reconcileNormal_never_probes_again (Sample.healthy Sample.bootstrapped)
           (Sample.ctx (Some "bootstrap"))
           (Sample.inMemory Sample.bootstrapped Sample.readyWorld) eq_refl).
Defined.

(** X11: as long as the bootstrap probe fails, a machine that is neither
    bootstrapped nor provisioned stays so: the normal path never sets
    [Spec.Bootstrapped], never sets a provider id, never asks the VM handle to
    register one, and every patch it sends says the same. *)
Theorem reconcileNormal_not_bootstrapped (env : Env) (ctx : MachineContext)
  (st : State) :
  (∀ w e, IsBootstrapped env w e = false) →
  infrav1.Spec_Bootstrapped (mem st) = false →
  infrav1.Spec_ProviderID (mem st) = None →
  let st' := snd (reconcileNormal env ctx st) in
  infrav1.Spec_Bootstrapped (mem st') = false
  ∧ infrav1.Spec_ProviderID (mem st') = None
  ∧ Forall (λ e, e ≠ EvSetProviderID
                 ∧ match e with
                   | EvPatch k _ =>
                       infrav1.Spec_Bootstrapped k = false
                       ∧ infrav1.Spec_ProviderID k = None
                   | _ => True
                   end)
      (emitted st st').
Proof.
  intros He Hb Hp. cbv zeta.
  assert (H : obeys (λ k, infrav1.Spec_Bootstrapped k = false
                          ∧ infrav1.Spec_ProviderID k = None)
                (λ e, e ≠ EvSetProviderID
                      ∧ match e with
                        | EvPatch k _ =>
                            infrav1.Spec_Bootstrapped k = false
                            ∧ infrav1.Spec_ProviderID k = None
                        | _ => True
                        end)
                (λ _, True) (reconcileNormal env ctx)).
  { unfold_normal. obeys_auto.
    all: obeys_excluded;
      repeat match goal with
             | H : ∃ w, _ = IsBootstrapped _ w _ |- _ => destruct H as [? ->]
             | H : _ ∧ _ |- _ => destruct H
             end;
      repeat match goal with
             | H : infrav1.Spec_Bootstrapped ?k = false,
               H' : context [infrav1.Spec_Bootstrapped ?k] |- _ =>
                 rewrite H in H'
             end;
      rewrite ?He in *; discriminate. }
  destruct (obeys_run _ _ _ _ st H (conj Hb Hp)) as (_ & (H1 & H2) & H3).
  by repeat split.
Qed.

(** Scenario D: booted, not bootstrapped. *)
Lemma reconcileNormal_not_bootstrapped_witness :
  infrav1.Spec_Bootstrapped
    (mem (snd (reconcileNormal Sample.scenarioD (Sample.ctx (Some "bootstrap"))
                 (Sample.inMemory Sample.worker Sample.readyWorld))))
  = false
  ∧ fst (reconcileNormal Sample.scenarioD (Sample.ctx (Some "bootstrap"))
           (Sample.inMemory Sample.worker Sample.readyWorld))
    = (requeueAfter (10 * Second), None).
Proof.
  destruct (reconcileNormal_not_bootstrapped Sample.scenarioD
              (Sample.ctx (Some "bootstrap"))
              (Sample.inMemory Sample.worker Sample.readyWorld)
              (λ _ _, eq_refl) eq_refl eq_refl) as (H & _).
  split; [exact H | reflexivity].
Defined.

(** ** The workload cluster client *)



(** ** The cluster-to-machines mapper *)

Lemma requestsFor_filter (items : list clusterv1.Machine)
  (result : list Request) :
  requestsFor items result
  = (result
     ++ map requestOf
          (filter (λ m, clusterv1.Spec_InfrastructureRef_Name m ≠ "") items))%list.
Proof.
  revert result.
  induction items as [|m items IH]; intros result; cbn [requestsFor].
  - rewrite filter_nil. cbn. by rewrite app_nil_r.
  - rewrite filter_cons. case_bool_decide as Hn.
    + rewrite decide_False by (by intros ?). apply IH.
    + rewrite decide_True by done. rewrite IH. cbn [map].
      by rewrite <- app_assoc.
Qed.

(** X13: for a KubevirtCluster, the mapper asks for the owner Cluster and,
    when there is one and no error, lists the Machines of that cluster in the
    KubevirtCluster's namespace; it then returns, in the order of the list,
    one request per Machine whose infrastructure reference has a name, made of
    that Machine's own namespace and name.  In every other case it returns no
    request.  It changes neither the machine in memory nor the secrets. *)
Theorem KubevirtClusterToKubevirtMachines_requests (env : Env)
  (c : infrav1.KubevirtCluster) (st : State) :
  let owner := GetOwnerCluster env (world st) (infrav1.ClusterObjectMeta c) in
  let w1 := record EvGetOwnerCluster (world st) in
  let out := KubevirtClusterToKubevirtMachines env (KubevirtClusterObject c) st in
  mem (snd out) = mem st
  ∧ secrets (world (snd out)) = secrets (world st)
  ∧ match owner with
    | (Some cluster, None) =>
        let labels : gmap string string :=
          {[ clusterv1.ClusterLabelName :=
               metav1.Name (clusterv1.ClusterMeta cluster) ]} in
        emitted st (snd out) = [EvGetOwnerCluster; EvList]
        ∧ match List_Machines env w1
                  (metav1.Namespace (infrav1.ClusterObjectMeta c)) labels with
          | Ok items =>
              fst out
              = Returns
                  (map requestOf
                     (filter
                        (λ m, clusterv1.Spec_InfrastructureRef_Name m ≠ "")
                        items))
          | Err _ => fst out = Returns []
          end
    | _ => fst out = Returns [] ∧ emitted st (snd out) = [EvGetOwnerCluster]
    end.
Proof.
  cbv zeta.
  unfold KubevirtClusterToKubevirtMachines, bind, call, ret. cbn.
  destruct (GetOwnerCluster env (world st) (infrav1.ClusterObjectMeta c))
    as [[cluster|] [e|]]; cbn.
  - destruct e; cbn; repeat split; apply emitted_app; reflexivity.
  - destruct (List_Machines env _ _ _) as [items|e]; cbn.
    all: split; [done|]; split; [done|].
    all: split; [apply emitted_app; cbn; by rewrite <- app_assoc|].
    + by rewrite requestsFor_filter.
    + done.
  - destruct e; cbn; repeat split; apply emitted_app; reflexivity.
  - repeat split; apply emitted_app; reflexivity.
Qed.

(** ** The synthesizer when there is nothing to derive from *)

Lemma Client_Get_answer (env : Env) (key : string * string) (st : State) :
  Client_Get env key st
  = (answer env (world st) key,
     {| mem := mem st; world := record (EvGet SecretKind key) (world st) |}).
Proof. reflexivity. Qed.

(** X14: without a data secret name the synthesizer fails without calling
    anything.  With one, when the derived secret cannot be read, it reads the
    generic secret and fails without writing: with the wrapped error of that
    read when the generic secret cannot be read either, and with an error of
    its own when the generic secret has no [value] key. *)
Theorem reconcileKubevirtBootstrapSecret_nothing_to_derive (env : Env)
  (ctx : MachineContext) (sshKeys : string * string) (st : State) :
  let namespace := metav1.Namespace (clusterv1.MachineMeta (ctx_Machine ctx)) in
  let out := reconcileKubevirtBootstrapSecret env ctx sshKeys st in
  match clusterv1.Spec_Bootstrap_DataSecretName (ctx_Machine ctx) with
  | None =>
      out
      = (Some (errors_New
           "error retrieving bootstrap data: linked Machine's bootstrap.dataSecretName is nil"),
         st)
  | Some name =>
      let derivedKey := (namespace, name +:+ "-userdata") in
      let w1 := record (EvGet SecretKind derivedKey) (world st) in
      ∀ err, answer env (world st) derivedKey = Err err →
        match answer env w1 (namespace, name) with
        | Err cause =>
            out
            = (Some (errors_Wrap cause
                 ("failed to retrieve bootstrap data secret for KubevirtMachine "
                  +:+ namespace +:+ "/"
                  +:+ metav1.Name (clusterv1.MachineMeta (ctx_Machine ctx)))),
               {| mem := mem st;
                  world := record (EvGet SecretKind (namespace, name)) w1 |})
        | Ok s =>
            corev1.Data s !! "value" = None →
            out
            = (Some (errors_New
                 "error retrieving bootstrap data: secret value key is missing"),
               {| mem := mem st;
                  world := record (EvGet SecretKind (namespace, name)) w1 |})
        end
  end.
Proof.
  cbv zeta. unfold reconcileKubevirtBootstrapSecret.
  destruct (clusterv1.Spec_Bootstrap_DataSecretName (ctx_Machine ctx))
    as [name|]; [|reflexivity].
  intros err Hd.
  destruct (answer env _ (_, name)) as [s|cause] eqn:Hg; [intros Hv|].
  all: unfold bind at 1; rewrite Client_Get_answer, Hd.
  all: unfold bind at 1; rewrite Client_Get_answer; cbn [world mem].
  all: rewrite Hg.
  - by rewrite Hv.
  - reflexivity.
Qed.

(** Neither the derived nor the generic secret is there. *)
Lemma reconcileKubevirtBootstrapSecret_nothing_to_derive_witness :
  fst (reconcileKubevirtBootstrapSecret (Sample.healthy Sample.worker)
         (Sample.ctx (Some "bootstrap")) ("ssh-rsa AAAA", "PRIVATE")
         (Sample.inMemory Sample.worker Sample.emptyWorld))
  = Some (ErrWrap ErrNotFound
            "failed to retrieve bootstrap data secret for KubevirtMachine default/machine-0").
Proof.
  exact (f_equal fst
           (reconcileKubevirtBootstrapSecret_nothing_to_derive
              (Sample.healthy Sample.worker) (Sample.ctx (Some "bootstrap"))
              ("ssh-rsa AAAA", "PRIVATE")
              (Sample.inMemory Sample.worker Sample.emptyWorld)
              ErrNotFound eq_refl)).
Defined.

(** ** The synthesizer when it derives the secret *)

Section Derives.

Variable env : Env.
Variable ctx : MachineContext.
Variable sshKeys : string * string.
Variable n : string.

Hypothesis faultFree_env : faultFree env.
Hypothesis dataSecretName_n :
  clusterv1.Spec_Bootstrap_DataSecretName (ctx_Machine ctx) = Some n.

Let ns : string := metav1.Namespace (clusterv1.MachineMeta (ctx_Machine ctx)).
Let derivedKey : string * string := (ns, n +:+ "-userdata").
Let genericKey : string * string := (ns, n).


End Derives.



(** ** The normal path when the synthesizer fails *)

Lemma reconcileKubevirtBootstrapSecret_secret_calls (env : Env)
  (ctx : MachineContext) (sshKeys : string * string) :
  obeys (λ _, True) (λ e, isSecretCall e = true) (λ _, True)
    (reconcileKubevirtBootstrapSecret env ctx sshKeys).
Proof.
  unfold reconcileKubevirtBootstrapSecret, CreateOrUpdate, mutate, Client_Get.
  obeys_auto.
Qed.

(** X16: whatever error the synthesizer returns, [reconcileNormal] does not
    return it: it answers the empty result and no error, leaves
    VMProvisioned=False with reason WaitingForBootstrapData, and calls
    nothing after the synthesizer, so its calls are the two questions about
    the SSH keys followed by reads and writes of secrets, and none to the
    VM. *)
Theorem reconcileNormal_synthesizer_error (env : Env) (ctx : MachineContext)
  (st : State) (name : string) (keys : string * string) (err : error) :
  let w1 := record EvIsPersistedToSecret (world st) in
  let w2 := record EvFetchPersistedKeysFromSecret w1 in
  let synthesized :=
    reconcileKubevirtBootstrapSecret env ctx keys
      {| mem := mem st; world := w2 |} in
  let out := reconcileNormal env ctx st in
  infrav1.Spec_ProviderID (mem st) = None →
  clusterv1.Spec_Bootstrap_DataSecretName (ctx_Machine ctx) = Some name →
  IsPersistedToSecret env (world st) (ctx_KubevirtCluster ctx) = true →
  FetchPersistedKeysFromSecret env w1 (ctx_KubevirtCluster ctx) = Ok keys →
  fst synthesized = Some err →
  fst out = (emptyResult, None)
  ∧ hasCondition (mem (snd out)) infrav1.VMProvisionedCondition
      clusterv1.ConditionFalse infrav1.WaitingForBootstrapDataReason
  ∧ world (snd out) = world (snd synthesized)
  ∧ ∃ evs,
      emitted st (snd out)
      = EvIsPersistedToSecret :: EvFetchPersistedKeysFromSecret :: evs
      ∧ Forall (λ e, isSecretCall e = true) evs
      ∧ Forall (λ e, isVMCall e = false) (emitted st (snd out)).
Proof.
  cbv zeta. intros Hp Hd Hpers Hfetch Herr.
  destruct (reconcileKubevirtBootstrapSecret_secret_calls env ctx keys
              {| mem := mem st;
                 world := record EvFetchPersistedKeysFromSecret
                            (record EvIsPersistedToSecret (world st)) |}
              Logic.I) as (_ & _ & evs & Ht & Hf).
  assert (Hout : reconcileNormal env ctx st
                 = (err <- reconcileKubevirtBootstrapSecret env ctx keys;;
                    match err with
                    | Some _ =>
                        MarkFalse env infrav1.VMProvisionedCondition
                          infrav1.WaitingForBootstrapDataReason
                          clusterv1.ConditionSeverityInfo "";;;
                        ret (emptyResult, None)
                    | None => reconcileVM env ctx keys
                    end)
                     {| mem := mem st;
                        world := record EvFetchPersistedKeysFromSecret
                                   (record EvIsPersistedToSecret (world st)) |}).
  { unfold reconcileNormal. unfold bind at 1, get_mem. rewrite Hp, Hd.
    unfold bind at 1, ssh_IsPersistedToSecret, call. rewrite Hpers.
    cbn [negb]. unfold bind at 1, ssh_FetchPersistedKeysFromSecret, call.
    cbn [world mem]. by rewrite Hfetch. }
  rewrite Hout. unfold bind.
  destruct (reconcileKubevirtBootstrapSecret env ctx keys _) as [e st3].
  cbn [fst snd] in *. subst e.
  split; [done|]. split; [apply MarkFalse_hasCondition|]. split; [done|].
  exists evs.
  match goal with
  | |- emitted st ?x = _ ∧ _ =>
      assert (He : emitted st x
                   = EvIsPersistedToSecret
                     :: EvFetchPersistedKeysFromSecret :: evs)
  end.
  { apply emitted_app. cbn. rewrite Ht. cbn. by rewrite <- !app_assoc. }
  rewrite He. split; [done|]. split; [done|].
  repeat (constructor; [done|]).
  eapply Forall_impl; [exact Hf|]. by intros [].
Qed.

(** The invocation that derives the secret: the machine waits for bootstrap
    data, and the VM is left for the next one. *)
Lemma reconcileNormal_synthesizer_error_witness :
  fst (reconcileNormal (Sample.healthy Sample.worker)
         (Sample.ctx (Some "bootstrap"))
         (Sample.inMemory Sample.worker Sample.genericOnly))
  = (emptyResult, None).
Proof.
  refine (proj1 (reconcileNormal_synthesizer_error
                   (Sample.healthy Sample.worker)
                   (Sample.ctx (Some "bootstrap"))
                   (Sample.inMemory Sample.worker Sample.genericOnly)
                   "bootstrap" ("ssh-rsa AAAA", "PRIVATE")
                   (ErrWrap ErrAlreadyExists
                      "failed to create kubevirt bootstrap secret for cluster")
                   eq_refl eq_refl eq_refl eq_refl _)).
  vm_compute. reflexivity.
Defined.

(** ** Which secrets an invocation can change *)

Section Preserves.

Variable env : Env.
Variable S : gmap (string * string) corev1.Secret → Prop.

Lemma preserves_ret {A} (Q : A → Prop) (a : A) : Q a → preserves S Q (ret a).
Proof. intros Hq st Hs. by split. Qed.

Lemma preserves_bind {A B} (Q : A → Prop) (R : B → Prop) (m : M A)
  (k : A → M B) :
  preserves S Q m → (∀ a, Q a → preserves S R (k a)) →
  preserves S R (bind m k).
Proof.
  intros Hm Hk st Hs. unfold bind.
  specialize (Hm st Hs). destruct (m st) as [a st']. cbn in Hm.
  destruct Hm as [Hq Hs']. exact (Hk a Hq st' Hs').
Qed.

Lemma preserves_weaken {A} (Q Q' : A → Prop) (m : M A) :
  (∀ a, Q a → Q' a) → preserves S Q m → preserves S Q' m.
Proof. intros Hq Hm st Hs. destruct (Hm st Hs). auto. Qed.

(** Code that leaves the secrets as they are. *)
Lemma preserves_same {A} (m : M A) :
  (∀ st, secrets (world (snd (m st))) = secrets (world st)) →
  preserves S (λ _, True) m.
Proof. intros Hm st Hs. split; [done|]. by rewrite Hm. Qed.

Lemma preserves_NewHelper : preserves S (λ _, True) (NewHelper env).
Proof.
  apply preserves_same. intros st. unfold NewHelper.
  by destruct (NewHelper_error env (world st) (mem st)).
Qed.

Lemma preserves_Client_Get_KubevirtMachine (key : string * string) :
  preserves S (λ _, True) (Client_Get_KubevirtMachine env key).
Proof.
  apply preserves_same. intros st. unfold Client_Get_KubevirtMachine.
  by destruct (Get_KubevirtMachine env (world st) key).
Qed.

End Preserves.

(** One rule of the logic, chosen by the shape of the code; the synthesizer
    is left to its own lemma. *)
Ltac preserves_step :=
  cbv beta zeta;
  lazymatch goal with
  | |- @preserves ?A _ ?Q ?m =>
      try (is_evar Q; unify Q (λ _ : A, True));
      lazymatch m with
      | ret _ => apply preserves_ret; exact Logic.I
      | bind _ _ => eapply preserves_bind; [|intros ? _]
      | NewHelper _ => apply preserves_NewHelper
      | Client_Get_KubevirtMachine _ _ =>
          apply preserves_Client_Get_KubevirtMachine
      | reconcileKubevirtBootstrapSecret _ _ _ => fail
      | match ?x with _ => _ end => destruct x eqn:?
      | _ => apply preserves_same; intros; reflexivity
      end
  end.

Ltac preserves_auto := repeat preserves_step.

Lemma loadContext_keeps_secrets (env : Env) (req : Request)
  (S : gmap (string * string) corev1.Secret → Prop) :
  preserves S (λ _, True) (loadContext env req).
Proof.
  unfold loadContext, util_GetOwnerMachine, util_GetClusterFromMetadata,
    Client_Get_KubevirtCluster.
  preserves_auto.
Qed.

Section Framed.

Variable env : Env.
Variable key : option (string * string).
Variable store0 : gmap (string * string) corev1.Secret.

Lemma framed_insert (store : gmap (string * string) corev1.Secret)
  (obj : corev1.Secret) :
  Some (ObjectKeyFromObject obj) = key →
  framed key store0 store →
  framed key store0 (<[ObjectKeyFromObject obj := obj]> store).
Proof.
  intros Hk [Hwf Hfr]. split.
  - intros k s. destruct (decide (k = ObjectKeyFromObject obj)) as [->|Hne].
    + rewrite lookup_insert_eq. by intros [= <-].
    + rewrite lookup_insert_ne by done. apply Hwf.
  - intros k Hne. rewrite lookup_insert_ne; [by apply Hfr|].
    intros <-. by apply Hne.
Qed.

(** A read of a well-formed store answers a secret of the name asked for. *)
Lemma preserves_Client_Get (k : string * string) :
  preserves (framed key store0)
    (λ r, ∀ s, r = Ok s → ObjectKeyFromObject s = k) (Client_Get env k).
Proof.
  intros st [Hwf Hfr]. split; [|by split].
  unfold Client_Get, call. cbn. intros s.
  destruct (Get_fault env (world st) k); [done|].
  destruct (secrets (world st) !! k) as [s'|] eqn:Hs; [|done].
  intros [= <-]. by apply Hwf.
Qed.

Lemma preserves_Client_Create (obj : corev1.Secret) :
  Some (ObjectKeyFromObject obj) = key →
  preserves (framed key store0) (λ _, True) (Client_Create env obj).
Proof.
  intros Hk st Hs. split; [done|]. unfold Client_Create. cbn.
  destruct (Create_fault env (world st) obj); [done|].
  destruct (secrets (world st) !! ObjectKeyFromObject obj); [done|].
  by apply framed_insert.
Qed.

Lemma preserves_Client_Update (obj : corev1.Secret) :
  Some (ObjectKeyFromObject obj) = key →
  preserves (framed key store0) (λ _, True) (Client_Update env obj).
Proof.
  intros Hk st Hs. split; [done|]. unfold Client_Update. cbn.
  destruct (Update_fault env (world st) obj); [done|].
  destruct (secrets (world st) !! ObjectKeyFromObject obj); [|done].
  by apply framed_insert.
Qed.

(** The mutate wrapper lets an object through only under the key it had. *)
Lemma preserves_mutate (f : MutateFn) (k : string * string)
  (obj : corev1.Secret) :
  preserves (framed key store0) (λ _, True) (f obj) →
  preserves (framed key store0)
    (λ r, snd r = None → ObjectKeyFromObject (fst r) = k) (mutate f k obj).
Proof.
  intros Hf. unfold mutate. eapply preserves_bind; [exact Hf|].
  intros r _. destruct (snd r); [by apply preserves_ret|].
  case_bool_decide; by apply preserves_ret.
Qed.

Lemma preserves_CreateOrUpdate (obj : corev1.Secret) (f : MutateFn) :
  Some (ObjectKeyFromObject obj) = key →
  (∀ o, Some (ObjectKeyFromObject o) = key →
        preserves (framed key store0) (λ _, True) (f o)) →
  preserves (framed key store0) (λ _, True) (CreateOrUpdate env obj f).
Proof.
  intros Hk Hf. unfold CreateOrUpdate. cbv zeta.
  eapply preserves_bind; [apply preserves_Client_Get|].
  intros [existing|err] Hr.
  - assert (He : Some (ObjectKeyFromObject existing) = key)
      by (by rewrite (Hr existing eq_refl)).
    eapply preserves_bind; [apply preserves_mutate, Hf, He|].
    intros r Hm. destruct (snd r) eqn:Hs; [by apply preserves_ret|].
    case_bool_decide; [by apply preserves_ret|].
    eapply preserves_bind; [|intros ? _; by apply preserves_ret].
    apply preserves_Client_Update. by rewrite (Hm Hs).
  - destruct (negb (IsNotFound (Some err))); [by apply preserves_ret|].
    eapply preserves_bind; [apply preserves_mutate, Hf, Hk|].
    intros r Hm. destruct (snd r) eqn:Hs; [by apply preserves_ret|].
    eapply preserves_bind; [|intros ? _; by apply preserves_ret].
    apply preserves_Client_Create. by rewrite (Hm Hs).
Qed.

Lemma preserves_synthesizer (ctx : MachineContext)
  (sshKeys : string * string) :
  derivedSecretKey (ctx_Machine ctx) = key →
  preserves (framed key store0) (λ _, True)
    (reconcileKubevirtBootstrapSecret env ctx sshKeys).
Proof.
  unfold derivedSecretKey, reconcileKubevirtBootstrapSecret.
  destruct (clusterv1.Spec_Bootstrap_DataSecretName (ctx_Machine ctx))
    as [name|]; intros Hk; [|by apply preserves_ret].
  cbv zeta. eapply preserves_bind; [apply preserves_Client_Get|].
  intros [?|?] _; [by apply preserves_ret|].
  eapply preserves_bind; [apply preserves_Client_Get|].
  intros [s|?] Hs; [|by apply preserves_ret].
  specialize (Hs s eq_refl). injection Hs as _ Hname.
  destruct (corev1.Data s !! "value") as [value|]; [|by apply preserves_ret].
  eapply preserves_bind.
  - apply preserves_CreateOrUpdate.
    + cbn. by rewrite Hname.
    + intros o Ho. eapply preserves_bind.
      * apply preserves_CreateOrUpdate; [exact Ho|].
        intros o' _. preserves_auto.
      * intros r _. destruct (snd r); by apply preserves_ret.
  - intros r _. destruct (snd r); by apply preserves_ret.
Qed.

Lemma preserves_reconcileGuarded (ctx : MachineContext) :
  derivedSecretKey (ctx_Machine ctx) = key →
  preserves (framed key store0) (λ _, True) (reconcileGuarded env ctx).
Proof.
  intros Hk.
  unfold reconcileGuarded, reconcileDelete, reconcileNormal, reconcileVM,
    reconcileBootstrap, reconcileAddresses, reconcileProviderID,
    reconcileWorkloadClusterClient, getKubeconfigForWorkloadCluster,
    MarkTrue, MarkFalse.
  preserves_auto.
  all: try (by apply preserves_synthesizer).
Qed.

End Framed.

(** X17: an invocation that starts from secrets stored under their own
    namespace and name leaves them so, and the only secret it can create or
    change is the derived secret [<dataSecretName>-userdata] in the namespace
    of the Machine it loaded: whatever the collaborators answer and whatever
    faults the API client has, every other secret is at return what it was at
    entry, and an invocation that ends in the entry sequence or whose Machine
    names no bootstrap data secret changes none. *)
Theorem Reconcile_changes_one_secret (env : Env) (req : Request) (w : World) :
  wellFormed (secrets w) →
  let st3 := snd (run (Reconcile env req) w) in
  wellFormed (secrets (world st3))
  ∧ ∀ k, secrets (world st3) !! k ≠ secrets w !! k →
      ∃ ctx h st1,
        run (loadContext env req) w = (inr (ctx, h), st1)
        ∧ derivedSecretKey (ctx_Machine ctx) = Some k.
Proof.
  intros Hwf. cbv zeta.
  destruct (loadContext_keeps_secrets env req (λ s, s = secrets w) (start w)
              eq_refl) as [_ Hl].
  unfold run, Reconcile, bind. fold (start w).
  destruct (loadContext env req (start w)) as [[stopped|[ctx h]] st1].
  - cbn in *. rewrite Hl. split; [done|]. by intros k Hne.
  - cbn [snd] in Hl.
    assert (Hfr : framed (derivedSecretKey (ctx_Machine ctx)) (secrets w)
                    (secrets (world st1))) by (by rewrite Hl).
    destruct (preserves_reconcileGuarded env _ (secrets w) ctx eq_refl st1 Hfr)
      as [_ [Hwf2 Hfr2]].
    destruct (reconcileGuarded env ctx st1) as [r st2].
    assert (Hd : secrets (world (snd (deferredPatch env h r st2)))
                 = secrets (world st2)).
    { unfold deferredPatch, bind, PatchKubevirtMachine, bind, get_mem, call.
      cbn. destruct (Patch env _ _ _); [destruct (snd r)|]; reflexivity. }
    destruct (deferredPatch env h r st2) as [r' st3]. unfold ret.
    cbn [snd] in *. rewrite Hd. split; [exact Hwf2|]. intros k Hne.
    destruct (decide (Some k = derivedSecretKey (ctx_Machine ctx))) as [He|He].
    + by exists ctx, h, st1.
    + exfalso. apply Hne. by apply Hfr2.
Qed.

(** The invocation that derives the secret of [bootstrap]. *)
Lemma Reconcile_changes_one_secret_witness :
  wellFormed
    (secrets
       (world (snd (run (Reconcile (Sample.healthy Sample.worker)
                           Sample.request)
                      Sample.genericOnly)))).
Proof.
  refine (proj1 (Reconcile_changes_one_secret (Sample.healthy Sample.worker)
                   Sample.request Sample.genericOnly _)).
  intros k s Hs. unfold Sample.genericOnly in Hs. cbn [secrets] in Hs.
  apply lookup_singleton_Some in Hs as [<- <-]. reflexivity.
Defined.

(** ** How a machine becomes ready *)

Section Ensures.

Variable env : Env.

Lemma ensures_ret {A} (I : infrav1.KubevirtMachine → Prop)
  (R : A → infrav1.KubevirtMachine → Prop) (a : A) :
  (∀ k, I k → R a k) → ensures I R (ret a).
Proof. intros Hr st Hi. by apply Hr. Qed.

Lemma ensures_bind {A B} (I : infrav1.KubevirtMachine → Prop)
  (Q : A → infrav1.KubevirtMachine → Prop)
  (R : B → infrav1.KubevirtMachine → Prop) (m : M A) (k : A → M B) :
  ensures I Q m → (∀ a, ensures (Q a) R (k a)) → ensures I R (bind m k).
Proof.
  intros Hm Hk st Hi. unfold bind. specialize (Hm st Hi).
  destruct (m st) as [a st']. exact (Hk a st' Hm).
Qed.

Lemma ensures_weaken {A} (I : infrav1.KubevirtMachine → Prop)
  (Q Q' : A → infrav1.KubevirtMachine → Prop) (m : M A) :
  (∀ a k, Q a k → Q' a k) → ensures I Q m → ensures I Q' m.
Proof. intros Hq Hm st Hi. by apply Hq, Hm. Qed.

Lemma ensures_get_mem (I : infrav1.KubevirtMachine → Prop) :
  ensures I (λ a k, a = k ∧ I k) get_mem.
Proof. intros st Hi. by split. Qed.

Lemma ensures_modify (I : infrav1.KubevirtMachine → Prop)
  (f : infrav1.KubevirtMachine → infrav1.KubevirtMachine) :
  ensures I (λ _ k, ∃ k0, I k0 ∧ k = f k0) (modify f).
Proof. intros st Hi. by exists (mem st). Qed.

(** Code that leaves the machine in memory as it is. *)
Lemma ensures_frame {A} (I : infrav1.KubevirtMachine → Prop) (m : M A) :
  (∀ st, mem (snd (m st)) = mem st) → ensures I (λ _ k, I k) m.
Proof. intros Hm st Hi. by rewrite Hm. Qed.

Lemma ensures_MarkTrue (I : infrav1.KubevirtMachine → Prop)
  (t : clusterv1.ConditionType) :
  ensures I (λ _ k, ∃ k0 now, I k0 ∧ k = conditions.MarkTrue now k0 t)
    (MarkTrue env t).
Proof. intros st Hi. by exists (mem st), (Now env (world st)). Qed.

Lemma ensures_MarkFalse (I : infrav1.KubevirtMachine → Prop)
  (t : clusterv1.ConditionType) (reason : string)
  (severity : clusterv1.ConditionSeverity) (message : string) :
  ensures I
    (λ _ k, ∃ k0 now,
       I k0 ∧ k = conditions.MarkFalse now k0 t reason severity message)
    (MarkFalse env t reason severity message).
Proof. intros st Hi. by exists (mem st), (Now env (world st)). Qed.

Lemma NewHelper_mem (st : State) : mem (snd (NewHelper env st)) = mem st.
Proof.
  unfold NewHelper. by destruct (NewHelper_error env (world st) (mem st)).
Qed.

End Ensures.

(** Close a leaf: what the code made of the machine is spelled out. *)
Ltac ensures_spelled :=
  intros; cbv beta in *;
  repeat match goal with
         | H : ∃ _, _ |- _ => destruct H
         | H : _ ∧ _ |- _ => destruct H
         end;
  subst.

Ltac ensures_leaf := fail.

Ltac ensures_side :=
  first [ by (intros ? H; exact H)
        | by (intros ? ? H; exact H)
        | ensures_spelled; ensures_leaf ].

Ltac ensures_frame_side :=
  intros;
  first [ reflexivity | apply NewHelper_mem ].

(** One rule of the logic, chosen by the shape of the code.  Where the
    predicate of the outcome is still open, a read or an update of the
    machine fixes it to what was read or written, and anything else must
    leave the machine as it is. *)
Ltac ensures_step :=
  cbv beta zeta;
  lazymatch goal with
  | |- @ensures ?A ?I ?Q ?m =>
      tryif is_evar Q then
        (lazymatch m with
         | get_mem => apply ensures_get_mem
         | modify _ => apply ensures_modify
         | MarkTrue _ _ => apply ensures_MarkTrue
         | MarkFalse _ _ _ _ _ => apply ensures_MarkFalse
         | bind _ _ => unify Q (λ (_ : A) k, I k)
         | match _ with _ => _ end => unify Q (λ (_ : A) k, I k)
         | _ => apply ensures_frame; ensures_frame_side
         end)
      else
        (lazymatch m with
         | ret _ => apply ensures_ret; ensures_side
         | bind _ _ => eapply ensures_bind; [|intros ?]
         | match ?x with _ => _ end => destruct x eqn:?
         | get_mem =>
             eapply ensures_weaken; [|apply ensures_get_mem]; ensures_side
         | modify _ =>
             eapply ensures_weaken; [|apply ensures_modify]; ensures_side
         | MarkTrue _ _ =>
             eapply ensures_weaken; [|apply ensures_MarkTrue]; ensures_side
         | MarkFalse _ _ _ _ _ =>
             eapply ensures_weaken; [|apply ensures_MarkFalse]; ensures_side
         | _ =>
             eapply ensures_weaken;
             [|apply ensures_frame; ensures_frame_side]; ensures_side
         end)
  end.

Ltac ensures_auto := repeat ensures_step.

Ltac ensures_leaf ::=
  first
    [ done
    | left; split; reflexivity
    | right; split; [reflexivity|];
      split; [cbn; eauto|]; split; [reflexivity|];
      apply MarkTrue_hasCondition ].

Lemma reconcileNormal_ensures_ready (env : Env) (ctx : MachineContext)
  (k0 : infrav1.KubevirtMachine) :
  ensures (λ k, k = k0)
    (λ r k,
       infrav1.Status_Ready k = infrav1.Status_Ready k0
       ∧ infrav1.Spec_ProviderID k = infrav1.Spec_ProviderID k0
       ∨ infrav1.Status_Ready k = true
         ∧ is_Some (infrav1.Spec_ProviderID k)
         ∧ r = (emptyResult, None)
         ∧ hasCondition k infrav1.VMProvisionedCondition
             clusterv1.ConditionTrue "")
    (reconcileNormal env ctx).
Proof.
  unfold reconcileNormal, reconcileVM, reconcileBootstrap, reconcileAddresses,
    reconcileProviderID, reconcileWorkloadClusterClient,
    getKubeconfigForWorkloadCluster, reconcileKubevirtBootstrapSecret,
    CreateOrUpdate, mutate.
  ensures_auto.
Qed.

(** X18: the normal path either leaves [Status.Ready] and [Spec.ProviderID]
    as they were, or ends with the machine ready, a provider id set and
    VMProvisioned=True, and then it returns the empty result and no error.
    So it never clears [Status.Ready], never reports a machine without a
    provider id ready, and never returns an error or a requeue delay from the
    run that makes the machine ready. *)
Theorem reconcileNormal_ready (env : Env) (ctx : MachineContext) (st : State) :
  let out := reconcileNormal env ctx st in
  infrav1.Status_Ready (mem (snd out)) = infrav1.Status_Ready (mem st)
  ∧ infrav1.Spec_ProviderID (mem (snd out)) = infrav1.Spec_ProviderID (mem st)
  ∨ infrav1.Status_Ready (mem (snd out)) = true
    ∧ is_Some (infrav1.Spec_ProviderID (mem (snd out)))
    ∧ fst out = (emptyResult, None)
    ∧ hasCondition (mem (snd out)) infrav1.VMProvisionedCondition
        clusterv1.ConditionTrue "".
Proof. exact (reconcileNormal_ensures_ready env ctx (mem st) st eq_refl). Qed.

(** ** The addresses of a machine *)

Ltac ensures_leaf ::=
  first
    [ done
    | left; reflexivity
    | right; cbn in *;
      split; [first [reflexivity | by apply negb_false_iff]|];
      by eexists _, _ ].

Lemma reconcileNormal_ensures_addresses (env : Env) (ctx : MachineContext)
  (k0 : infrav1.KubevirtMachine) :
  ensures (λ k, k = k0)
    (λ _ k,
       infrav1.Status_Addresses k = infrav1.Status_Addresses k0
       ∨ infrav1.Spec_Bootstrapped k = true
         ∧ ∃ internal external,
             infrav1.Status_Addresses k
             = [ {| clusterv1.AddressType := clusterv1.MachineHostName;
                    clusterv1.Address := metav1.Name (infrav1.ObjectMeta k0) |};
                 {| clusterv1.AddressType := clusterv1.MachineInternalIP;
                    clusterv1.Address := internal |};
                 {| clusterv1.AddressType := clusterv1.MachineExternalIP;
                    clusterv1.Address := external |} ])
    (reconcileNormal env ctx).
Proof.
  unfold reconcileNormal, reconcileVM, reconcileBootstrap, reconcileAddresses,
    reconcileProviderID, reconcileWorkloadClusterClient,
    getKubeconfigForWorkloadCluster, reconcileKubevirtBootstrapSecret,
    CreateOrUpdate, mutate.
  ensures_auto.
Qed.

(** X19: the normal path publishes addresses only for a bootstrapped machine:
    either [Status.Addresses] is at return what it was at entry, or
    [Spec.Bootstrapped] is set and the addresses are exactly three, the host
    name, which is the name of the KubevirtMachine, an internal and an
    external address, in that order. *)
Theorem reconcileNormal_addresses (env : Env) (ctx : MachineContext)
  (st : State) :
  let st' := snd (reconcileNormal env ctx st) in
  infrav1.Status_Addresses (mem st') = infrav1.Status_Addresses (mem st)
  ∨ infrav1.Spec_Bootstrapped (mem st') = true
    ∧ ∃ internal external,
        infrav1.Status_Addresses (mem st')
        = [ {| clusterv1.AddressType := clusterv1.MachineHostName;
               clusterv1.Address := metav1.Name (infrav1.ObjectMeta (mem st)) |};
            {| clusterv1.AddressType := clusterv1.MachineInternalIP;
               clusterv1.Address := internal |};
            {| clusterv1.AddressType := clusterv1.MachineExternalIP;
               clusterv1.Address := external |} ].
Proof. exact (reconcileNormal_ensures_addresses env ctx (mem st) st eq_refl). Qed.
